(** * The trivia API backend (backend/flaskr/__init__.py), embedded in Rocq.

    The six view functions of the Flask application are written as
    computations in a state-and-exception monad over a store that holds the
    two tables (categories, questions); [serve] adds the two error handlers.

    - Python: integers are unbounded ([Z]); [l[start:stop]] is [py_slice];
      [if v:] is [truthy]; [body.get(key, None)] is [get]; strings are byte
      strings and [lower] folds ASCII letters; the values decoded from and
      encoded to JSON are the type [json] (no floating point numbers).
    - Requests: a request carries its [page] argument, already read as an
      integer when it is one, and the decoded body [get_json].
    - Queries: a table is the list of its rows; [order_by] is ascending and
      keeps rows of equal key in table order; [filter] is [List.filter];
      [count()] is the length; a column equals a parameter when both are
      the same scalar; [ilike] is SQL's LIKE on case-folded text.
    - models.py is not among the sources: [Question.format],
      [Question_insert] and [Question_delete] are modelled from the
      specification, and a row keeps the values it was built from.
    - [random.choice] is the element at the index its generator draws.
    - Logging and the CORS headers are left out. *)

From Stdlib Require Import ZArith List String Ascii Bool Lia.
From Stdlib Require Import Sorting.Sorted Sorting.Permutation.
From Stdlib Require Import DecimalString DecimalZ.
Import ListNotations.

Local Open Scope string_scope.
Local Open Scope Z_scope.

(** ** Python values that travel as JSON *)

#[local] Set Warnings "-register-all".

Inductive json : Type :=
| JNull
| JBool (b : bool)
| JNum (n : Z)
| JStr (s : string)
| JList (l : list json)
| JObj (o : list (string * json)).

(** Python truthiness: [if v:]. *)
Definition truthy (v : json) : bool :=
  match v with
  | JNull => false
  | JBool b => b
  | JNum n => negb (n =? 0)
  | JStr s => negb (String.eqb s "")
  | JList l => match l with [] => false | _ => true end
  | JObj o => match o with [] => false | _ => true end
  end.

(** [v is None]. *)
Definition is_None (v : json) : bool :=
  match v with JNull => true | _ => false end.

(** A dict is an association list in insertion order. *)
Definition dict := list (string * json).

Fixpoint dict_lookup (k : string) (d : dict) : option json :=
  match d with
  | [] => None
  | (k', v) :: d' => if String.eqb k k' then Some v else dict_lookup k d'
  end.

(** [d[k] = v]: overwrite in place, or append a new key. *)
Fixpoint dict_set (k : string) (v : json) (d : dict) : dict :=
  match d with
  | [] => [(k, v)]
  | (k', v') :: d' =>
      if String.eqb k k' then (k', v) :: d' else (k', v') :: dict_set k v d'
  end.

Definition has_key (k : string) (v : json) : bool :=
  match v with
  | JObj o => match dict_lookup k o with Some _ => true | None => false end
  | _ => false
  end.

(** [str(n)] for an integer. *)
Definition str (n : Z) : string := NilEmpty.string_of_int (Z.to_int n).

(** ** Exceptions and results *)

Inductive exn : Type :=
| HTTPException (code : Z)       (* werkzeug.exceptions.HTTPException *)
| Error (name : string).         (* any other Exception *)

Inductive result (A : Type) : Type :=
| Return (a : A)
| Raise (e : exn).
Arguments Return {A} a.
Arguments Raise {A} e.

(** [body.get(key, None)]: only a dict has [get]. *)
Definition get (body : json) (key : string) : result json :=
  match body with
  | JObj o => Return (match dict_lookup key o with Some v => v | None => JNull end)
  | _ => Raise (Error "AttributeError")
  end.

(** [s.lower()] on a decoded value: only a string has [lower]. *)
Definition lower_ascii (c : ascii) : ascii :=
  let n := nat_of_ascii c in
  if andb (Nat.leb 65 n) (Nat.leb n 90) then ascii_of_nat (n + 32) else c.

Fixpoint lower (s : string) : string :=
  match s with
  | EmptyString => EmptyString
  | String c s' => String (lower_ascii c) (lower s')
  end.

Definition value_lower (v : json) : result string :=
  match v with
  | JStr s => Return (lower s)
  | _ => Raise (Error "AttributeError")
  end.

(** ** Python slices [l[start:stop]] *)

Definition slice_index (len i : Z) : Z :=
  if i <? 0 then Z.max 0 (i + len) else Z.min i len.

Definition py_slice {A : Type} (l : list A) (start stop : Z) : list A :=
  let len := Z.of_nat (List.length l) in
  let lo := slice_index len start in
  let hi := slice_index len stop in
  firstn (Z.to_nat (hi - lo)) (skipn (Z.to_nat lo) l).

(** ** The two record types and the store *)

Module Category.
(** Modelled from the spec: the [Category] record of models.py, which is not
    part of the sources; an integer identity and a text label. *)
Record t : Type := mk { id : Z; type : string }.
End Category.

Module Question.
(** Modelled from the spec: the [Question] record of models.py, which is not
    part of the sources; an integer identity and the four attributes, which
    hold the values the constructor was given (the view hands it the
    decoded body fields unchecked; column types are not modelled). *)
Record t : Type :=
  mk { id : Z; question : json; answer : json; difficulty : json; category : json }.

(** Modelled from the spec: [Question.format] of models.py, which is not
    part of the sources; the record's five fields as a JSON object. *)
Definition format (q : t) : json :=
  JObj [("id", JNum (id q)); ("question", question q); ("answer", answer q);
        ("difficulty", difficulty q); ("category", category q)].
End Question.

Record store : Type :=
  { categories : list Category.t;     (* rows of the categories table *)
    questions : list Question.t }.    (* rows of the questions table *)

(** ** The monad of the views: a store threaded through, exceptions *)

Definition M (A : Type) : Type := store -> result A * store.

Definition ret {A} (a : A) : M A := fun st => (Return a, st).
Definition raise {A} (e : exn) : M A := fun st => (Raise e, st).
Definition bind {A B} (m : M A) (k : A -> M B) : M B :=
  fun st => match m st with
            | (Return a, st') => k a st'
            | (Raise e, st') => (Raise e, st')
            end.
Definition lift {A} (r : result A) : M A := fun st => (r, st).
Definition try_except {A} (m : M A) (handler : exn -> M A) : M A :=
  fun st => match m st with
            | (Return a, st') => (Return a, st')
            | (Raise e, st') => handler e st'
            end.

Declare Scope view_scope.
Delimit Scope view_scope with view.
Notation "x <- m ;; k" := (bind m (fun x => k))
  (at level 100, m at next level, right associativity) : view_scope.
Notation "m ;;; k" := (bind m (fun _ => k))
  (at level 100, right associativity) : view_scope.
Local Open Scope view_scope.

(** [abort(code)] raises the HTTP exception of that code. *)
Definition abort {A} (code : Z) : M A := raise (HTTPException code).

(** [if cond: stmt]. *)
Definition when (cond : bool) (m : M unit) : M unit :=
  if cond then m else ret tt.

(** The [except] clauses every view ends with: an HTTP exception is raised
    again as it is, any other exception is logged and becomes [abort(422)]. *)
Definition handle_errors {A} (m : M A) : M A :=
  try_except m (fun e =>
    match e with
    | HTTPException code => raise (HTTPException code)
    | Error _ => abort 422
    end).

(** ** Queries *)

(** A query reads the store. *)
Definition query {A} (f : store -> A) : M A := fun st => (Return (f st), st).

(** [order_by(key)]: ascending, rows of equal key in table order. *)
Fixpoint insert_by {A} (key : A -> Z) (x : A) (l : list A) : list A :=
  match l with
  | [] => [x]
  | y :: l' => if key x <=? key y then x :: l else y :: insert_by key x l'
  end.

Definition order_by {A} (key : A -> Z) (l : list A) : list A :=
  fold_right (insert_by key) [] l.

(** [one_or_none()]: no row, the row, or MultipleResultsFound. *)
Definition one_or_none {A} (rows : list A) : result (option A) :=
  match rows with
  | [] => Return None
  | [x] => Return (Some x)
  | _ => Raise (Error "MultipleResultsFound")
  end.

(** The store compares a column with a parameter by value. *)
Definition same_scalar (a b : json) : bool :=
  match a, b with
  | JNum m, JNum n => m =? n
  | JStr s, JStr t => String.eqb s t
  | JBool x, JBool y => Bool.eqb x y
  | _, _ => false
  end.

(** [column.not_in(values)]. *)
Definition not_in (column : json) (values : list json) : bool :=
  negb (existsb (same_scalar column) values).

(** [text LIKE pattern]: [%] stands for any run of characters, [_] for any
    one character, and a backslash takes the next character literally. *)
Fixpoint like (pattern : string) : string -> bool :=
  match pattern with
  | EmptyString => fun text => match text with EmptyString => true | _ => false end
  | String c p =>
      if Ascii.eqb c "%" then
        fix any_run (text : string) : bool :=
          like p text
          || match text with EmptyString => false | String _ t => any_run t end
      else if Ascii.eqb c "_" then
        fun text => match text with EmptyString => false | String _ t => like p t end
      else if Ascii.eqb c "\" then
        match p with
        | EmptyString => fun _ => false
        | String c' p' =>
            fun text => match text with
                        | EmptyString => false
                        | String d t => Ascii.eqb d c' && like p' t
                        end
        end
      else
        fun text => match text with
                    | EmptyString => false
                    | String d t => Ascii.eqb d c && like p t
                    end
  end.

(** [column.ilike(pattern)]: LIKE without regard to case; only text matches. *)
Definition ilike (column : json) (pattern : string) : bool :=
  match column with
  | JStr text => like (lower pattern) (lower text)
  | _ => false
  end.

(** ['%{}%'.format(term)]. *)
Definition format_pattern (term : string) : string := ("%" ++ term ++ "%")%string.

(** Modelled from the spec: the identity the store gives a new question, one
    that no row has (here the next after the greatest). *)
Definition fresh_id (rows : list Question.t) : Z :=
  1 + fold_right Z.max 0 (map Question.id rows).

(** Modelled from the spec: [Question.insert] of models.py, which is not
    part of the sources; the record is persisted under a fresh identity. *)
Definition Question_insert (q : Question.t) : M unit :=
  fun st =>
    let row := Question.mk (fresh_id (questions st)) (Question.question q)
                 (Question.answer q) (Question.difficulty q) (Question.category q) in
    (Return tt, {| categories := categories st; questions := questions st ++ [row] |}).

(** Modelled from the spec: [Question.delete] of models.py, which is not
    part of the sources; the row of that identity is removed. *)
Definition Question_delete (q : Question.t) : M unit :=
  fun st =>
    (Return tt,
     {| categories := categories st;
        questions := filter (fun r => negb (Question.id r =? Question.id q)) (questions st) |}).

(** ** Requests *)

Record Request : Type :=
  { args_page : option Z;   (* the [page] query argument read as an int, if it is one *)
    get_json : json }.      (* the decoded body *)

(** [request.args.get('page', default, type=int)]. *)
Definition args_get_page (request : Request) (default : Z) : Z :=
  match args_page request with Some p => p | None => default end.

(** [d[key]] on a decoded value. *)
Definition subscript (d : json) (key : string) : result json :=
  match d with
  | JObj o => match dict_lookup key o with
              | Some v => Return v
              | None => Raise (Error "KeyError")
              end
  | _ => Raise (Error "TypeError")
  end.

(** [v == n] for an integer literal [n]. *)
Definition eq_int (v : json) (n : Z) : bool :=
  match v with
  | JNum m => m =? n
  | JBool b => (if b then 1 else 0) =? n
  | _ => false
  end.

(** [random.choice(seq)], drawing the index with [randbelow(len(seq))]. *)
Definition random_choice {A} (randbelow : nat -> nat) (seq : list A) : result A :=
  match nth_error seq (randbelow (List.length seq)) with
  | Some x => Return x
  | None => Raise (Error "IndexError")
  end.

(** [{str(category.id): category.type for category in selection}]. *)
Definition add_category (d : dict) (category : Category.t) : dict :=
  dict_set (str (Category.id category)) (JStr (Category.type category)) d.

Definition categories_dict (selection : list Category.t) : dict :=
  fold_left add_category selection [].

Definition len {A} (l : list A) : Z := Z.of_nat (List.length l).

Definition jsonify (d : dict) : json := JObj d.

(** ** The pagination helper *)

Definition QUESTIONS_PER_PAGE : Z := 10.

Definition paginate_questions (request : Request) (selection : list Question.t)
  : list json :=
  let page := args_get_page request 1 in
  let start := (page - 1) * QUESTIONS_PER_PAGE in
  let end_ := start + QUESTIONS_PER_PAGE in
  let questions := map Question.format selection in
  let current_questions := py_slice questions start end_ in
  current_questions.

(** ** The views *)

(** GET /categories *)
Definition retrieve_categories : M json :=
  handle_errors (
    selection <- query (fun st => order_by Category.id (categories st)) ;;
    when (len selection =? 0) (abort 404) ;;;
    ret (jsonify [("success", JBool true);
                  ("categories", JObj (categories_dict selection))])).

(** GET /questions *)
Definition retrieve_questions (request : Request) : M json :=
  handle_errors (
    selection <- query (fun st => order_by Question.id (questions st)) ;;
    let current_questions := paginate_questions request selection in
    when (len current_questions =? 0) (abort 404) ;;;
    all_questions <- query questions ;;
    all_categories <- query categories ;;
    ret (jsonify [("success", JBool true);
                  ("questions", JList current_questions);
                  ("totalQuestions", JNum (len all_questions));
                  ("categories", JObj (categories_dict all_categories))])).

(** DELETE /questions/<int:question_id> *)
Definition delete_question (question_id : Z) : M json :=
  handle_errors (
    question <- (rows <- query (fun st =>
                   filter (fun q => Question.id q =? question_id) (questions st)) ;;
                 lift (one_or_none rows)) ;;
    match question with
    | None => abort 404
    | Some question =>
        Question_delete question ;;;
        ret (jsonify [("success", JBool true); ("deleted", JNum question_id)])
    end).

(** POST /questions, the branch taken when [searchTerm] is truthy. *)
Definition search_questions (searchTerm : json) : M json :=
  term <- lift (value_lower searchTerm) ;;
  selection <- query (fun st =>
    order_by Question.id
      (filter (fun q => ilike (Question.question q) (format_pattern term))
              (questions st))) ;;
  all_questions <- query questions ;;
  ret (jsonify [("success", JBool true);
                ("questions", JList (map Question.format selection));
                ("totalQuestions", JNum (len all_questions));
                ("currentCategory", JNull)]).

(** POST /questions, the [else] branch. *)
Definition create_question (new_question new_answer new_difficulty new_category : json)
  : M json :=
  when (is_None new_question || is_None new_answer
        || is_None new_category || is_None new_difficulty) (abort 422) ;;;
  let question := Question.mk 0 new_question new_answer new_difficulty new_category in
  Question_insert question ;;;
  ret (jsonify [("success", JBool true)]).

(** POST /questions *)
Definition create_question_or_search (request : Request) : M json :=
  handle_errors (
    let body := get_json request in
    new_question <- lift (get body "question") ;;
    new_answer <- lift (get body "answer") ;;
    new_difficulty <- lift (get body "difficulty") ;;
    new_category <- lift (get body "category") ;;
    searchTerm <- lift (get body "searchTerm") ;;
    if truthy searchTerm then
      search_questions searchTerm
    else
      create_question new_question new_answer new_difficulty new_category).

(** GET /categories/<int:category_id>/questions *)
Definition retrieve_questions_from_category (category_id : Z) : M json :=
  handle_errors (
    category <- (rows <- query (fun st =>
                   filter (fun c => Category.id c =? category_id) (categories st)) ;;
                 lift (one_or_none rows)) ;;
    match category with
    | None => abort 404
    | Some category =>
        selection <- query (fun st =>
          order_by Question.id
            (filter (fun q => same_scalar (Question.category q) (JNum category_id))
                    (questions st))) ;;
        when (len selection =? 0) (abort 404) ;;;
        total <- query (fun st => len (questions st)) ;;
        ret (jsonify [("success", JBool true);
                      ("questions", JList (map Question.format selection));
                      ("totalQuestions", JNum total);
                      ("currentCategory", JStr (Category.type category))])
    end).

(** [Question.id.not_in(previous_questions)]: the argument has to be a list. *)
Definition as_list (v : json) : result (list json) :=
  match v with
  | JList l => Return l
  | _ => Raise (Error "ArgumentError")
  end.

(** POST /quizzes; [randbelow] is the generator [random.choice] draws from. *)
Definition get_questions_for_quiz (randbelow : nat -> nat) (request : Request) : M json :=
  handle_errors (
    let body := get_json request in
    previous_questions <- lift (get body "previous_questions") ;;
    quiz_category <- lift (get body "quiz_category") ;;
    quiz_category_id <- lift (subscript quiz_category "id") ;;
    previous <- lift (as_list previous_questions) ;;
    selection <-
      (if eq_int quiz_category_id 0 then
         query (fun st =>
           filter (fun q => not_in (JNum (Question.id q)) previous) (questions st))
       else
         query (fun st =>
           filter (fun q => same_scalar (Question.category q) quiz_category_id
                            && not_in (JNum (Question.id q)) previous)
                  (questions st))) ;;
    when (len selection =? 0) (abort 404) ;;;
    random_question <- lift (random_choice randbelow selection) ;;
    ret (jsonify [("success", JBool true);
                  ("question", Question.format random_question)])).

(** ** The application: error handlers and responses *)

Inductive payload : Type :=
| Json (j : json)       (* a body made by [jsonify] *)
| DefaultPage.          (* the framework's own error page *)

Record response : Type := { body : payload; status : Z }.

Definition error_body (code : Z) (message : string) : json :=
  jsonify [("success", JBool false); ("error", JNum code); ("message", JStr message)].

(** [@app.errorhandler(404)] *)
Definition not_found : response :=
  {| body := Json (error_body 404 "resource not found"); status := 404 |}.

(** [@app.errorhandler(422)] *)
Definition unprocessable : response :=
  {| body := Json (error_body 422 "unprocessable"); status := 422 |}.

(** An exception that leaves a view goes to the handler registered for its
    code; without one the framework answers with its own page. *)
Definition handle_exception (e : exn) : response :=
  match e with
  | HTTPException code =>
      if code =? 404 then not_found
      else if code =? 422 then unprocessable
      else {| body := DefaultPage; status := code |}
  | Error _ => {| body := DefaultPage; status := 500 |}
  end.

(** The answer to a request whose view returned [j]. *)
Definition ok (j : json) : response := {| body := Json j; status := 200 |}.

(** One request served by a view. *)
Definition serve (view : M json) (st : store) : response * store :=
  match view st with
  | (Return j, st') => (ok j, st')
  | (Raise e, st') => (handle_exception e, st')
  end.

(** The six routes of the application. *)
Inductive route : Type :=
| GET_categories
| GET_questions (request : Request)
| DELETE_question (question_id : Z)
| POST_questions (request : Request)
| GET_category_questions (category_id : Z)
| POST_quizzes (randbelow : nat -> nat) (request : Request).

Definition view_function (r : route) : M json :=
  match r with
  | GET_categories => retrieve_categories
  | GET_questions request => retrieve_questions request
  | DELETE_question question_id => delete_question question_id
  | POST_questions request => create_question_or_search request
  | GET_category_questions category_id => retrieve_questions_from_category category_id
  | POST_quizzes randbelow request => get_questions_for_quiz randbelow request
  end.

(** ** Reading requests and answers *)

(** What a response lists: its [questions], or its one [question]. *)
Definition response_questions (r : response) : list json :=
  match body r with
  | Json (JObj o) =>
      match dict_lookup "questions" o with
      | Some (JList l) => l
      | _ => match dict_lookup "question" o with Some j => [j] | None => [] end
      end
  | _ => []
  end.

(** One field of a response body. *)
Definition response_field (r : response) (key : string) : option json :=
  match body r with
  | Json (JObj o) => dict_lookup key o
  | _ => None
  end.

(** [body.get(key, None)] where the body is a dict, [None] where it is not. *)
Definition field (body : json) (key : string) : json :=
  match get body key with
  | Return v => v
  | Raise _ => JNull
  end.


(** ** The answers of the views, by name *)

(** GET /questions, for the page [current_questions]. *)
Definition questions_page (current_questions : list json) (st : store) : json :=
  JObj [("success", JBool true);
        ("questions", JList current_questions);
        ("totalQuestions", JNum (len (questions st)));
        ("categories", JObj (categories_dict (categories st)))].

(** POST /quizzes, for the question drawn. *)
Definition quiz_answer (q : Question.t) : json :=
  JObj [("success", JBool true); ("question", Question.format q)].

(** DELETE /questions/<question_id>. *)
Definition deleted_answer (question_id : Z) : json :=
  JObj [("success", JBool true); ("deleted", JNum question_id)].

(** The rows a search for [term] selects, and the answer it gives. *)
Definition search_selection (term : string) (st : store) : list Question.t :=
  order_by Question.id
    (filter (fun q => ilike (Question.question q) (format_pattern (lower term)))
            (questions st)).

Definition search_answer (term : string) (st : store) : json :=
  JObj [("success", JBool true);
        ("questions", JList (map Question.format (search_selection term st)));
        ("totalQuestions", JNum (len (questions st)));
        ("currentCategory", JNull)].

(** The rows GET /categories/<category_id>/questions selects, and its answer. *)
Definition category_selection (category_id : Z) (st : store) : list Question.t :=
  order_by Question.id
    (filter (fun q => same_scalar (Question.category q) (JNum category_id))
            (questions st)).

Definition category_answer (category : Category.t) (st : store) : json :=
  JObj [("success", JBool true);
        ("questions",
         JList (map Question.format (category_selection (Category.id category) st)));
        ("totalQuestions", JNum (len (questions st)));
        ("currentCategory", JStr (Category.type category))].

(** The store once the rows of identity [question_id] are gone. *)
Definition without_question (question_id : Z) (st : store) : store :=
  {| categories := categories st;
     questions := filter (fun r => negb (Question.id r =? question_id)) (questions st) |}.

(** The row a body's four fields make, under the identity the store gives,
    and the store once it is added. *)
Definition new_row (body : json) (st : store) : Question.t :=
  Question.mk (fresh_id (questions st)) (field body "question") (field body "answer")
              (field body "difficulty") (field body "category").

Definition with_question (row : Question.t) (st : store) : store :=
  {| categories := categories st; questions := questions st ++ [row] |}.

(** ** The words of the specification *)

(** Ascending by [key]. *)
Definition key_le {A} (key : A -> Z) (a b : A) : Prop := key a <= key b.

(** The N-th page, counted from 1, of a list cut into pages of ten. *)
Definition nth_page {A} (N : Z) (l : list A) : list A :=
  firstn 10 (skipn (Z.to_nat (10 * (N - 1))) l).

(** The candidates of a quiz request: the questions whose id is not among
    the previous ones, of the given category unless that is 0. *)
Definition quiz_candidates (previous : list Z) (c : Z) (st : store) : list Question.t :=
  filter (fun q => negb (existsb (Z.eqb (Question.id q)) previous)
                   && ((c =? 0) || same_scalar (Question.category q) (JNum c)))
         (questions st).





(** Three readings of POST /questions that the view does not meet. *)


(** "totalQuestions is the number of matches returned." *)
Definition search_total_counts_matches : Prop :=
  forall (st : store) (request : Request) (term : string),
    field (get_json request) "searchTerm" = JStr term -> term <> "" ->
    let r := fst (serve (create_question_or_search request) st) in
    response_field r "totalQuestions" = Some (JNum (len (response_questions r))).

(** "A body with a searchTerm field is a search, a body without one is a
    creation, whatever the field holds." *)
Definition dispatches_on_presence : Prop :=
  forall (request : Request) (st : store),
    let body := get_json request in
    (has_key "searchTerm" body = true ->
     create_question_or_search request st
     = handle_errors (search_questions (field body "searchTerm")) st)
    /\ (has_key "searchTerm" body = false ->
        create_question_or_search request st
        = handle_errors
            (create_question (field body "question") (field body "answer")
                             (field body "difficulty") (field body "category")) st).

(** ** Requests made one after another *)

(** GET /questions?page=N. *)
Definition request_page (N : Z) : Request :=
  {| args_page := Some N; get_json := JNull |}.

(** The first [k] pages a selection is cut into, pages 1 to [k]. *)
Definition first_pages (k : nat) (selection : list Question.t) : list (list json) :=
  map (fun i => paginate_questions (request_page (Z.of_nat i)) selection) (seq 1 k).

(** The store a request leaves behind. *)
Definition store_after (r : route) (st : store) : store :=
  snd (serve (view_function r) st).

(** What a request answers. *)
Definition answer_to (r : route) (st : store) : response :=
  fst (serve (view_function r) st).

(** POST /quizzes with a list of previous ids and a category id. *)
Definition quiz_request (previous : list Z) (c : Z) : Request :=
  {| args_page := None;
     get_json := JObj [("previous_questions", JList (map JNum previous));
                       ("quiz_category", JObj [("id", JNum c)])] |}.

(** The entry of a category in the mapping of the categories. *)
Definition category_entry (c : Category.t) : string * json :=
  (str (Category.id c), JStr (Category.type c)).

(** ** Sample data *)

Definition sample_question (i : Z) (text : string) (c : Z) : Question.t :=
  Question.mk i (JStr text) (JStr "answer") (JNum 1) (JNum c).

Definition sample_store : store :=
  {| categories := [Category.mk 1 "Science"; Category.mk 2 "Art"];
     questions := [sample_question 3 "What Title?" 1;
                   sample_question 1 "a" 2;
                   sample_question 2 "b" 1] |}.

Definition sample_post (body : dict) : Request :=
  {| args_page := None; get_json := JObj body |}.

Definition sample_get (page : Z) : Request :=
  {| args_page := Some page; get_json := JNull |}.

(** Twelve questions, identities 1 to 12. *)
Definition twelve_questions : store :=
  {| categories := [Category.mk 1 "Science"];
     questions := map (fun i => sample_question (Z.of_nat i) "q" 1) (seq 1 12) |}.

Definition quiz_body : dict :=
  [("previous_questions", JList (map JNum [3]));
   ("quiz_category", JObj [("id", JNum 1)])].

Definition complete_body : dict :=
  [("question", JStr "Who?"); ("answer", JStr "Me"); ("category", JNum 1);
   ("difficulty", JNum 2)].

(** ** Tactics *)

(* Unfold a view down to the store and the matches on its data. *)
Ltac run_view :=
  unfold serve, view_function, retrieve_categories, retrieve_questions,
    delete_question, create_question_or_search, search_questions, create_question,
    retrieve_questions_from_category, get_questions_for_quiz, random_choice,
    Question_insert, Question_delete, one_or_none, get, subscript, as_list,
    value_lower,
    handle_errors, try_except, bind, lift, query, when, abort, raise, ret;
  cbv zeta.

(* Case analysis on an innermost scrutinee of the goal. *)
Ltac split_match :=
  match goal with
  | |- context [match ?scrutinee with _ => _ end] =>
      lazymatch scrutinee with
      | context [match _ with _ => _ end] => fail
      | _ => destruct scrutinee eqn:?; cbn beta iota
      end
  end.


Ltac distinct_ids := repeat constructor; simpl; intuition discriminate.

(** ** Facts about [order_by] *)

Section OrderBy.
Context {A : Type} (key : A -> Z).

Lemma insert_by_perm (x : A) (l : list A) :
  Permutation (insert_by key x l) (x :: l).
Proof.
  induction l as [|y l IH]; simpl.
  - apply Permutation_refl.
  - destruct (key x <=? key y).
    + apply Permutation_refl.
    + eapply perm_trans; [apply perm_skip, IH | apply perm_swap].
Qed.

Lemma order_by_perm (l : list A) : Permutation (order_by key l) l.
Proof.
  induction l as [|x l IH]; simpl.
  - constructor.
  - eapply perm_trans; [apply insert_by_perm | apply perm_skip, IH].
Qed.

Lemma order_by_In (l : list A) (x : A) : In x (order_by key l) <-> In x l.
Proof.
  split; apply Permutation_in;
    [apply order_by_perm | apply Permutation_sym, order_by_perm].
Qed.

Lemma order_by_length (l : list A) : List.length (order_by key l) = List.length l.
Proof. apply Permutation_length, order_by_perm. Qed.

Lemma insert_by_sorted (x : A) (l : list A) :
  StronglySorted (key_le key) l -> StronglySorted (key_le key) (insert_by key x l).
Proof.
  induction 1 as [|y l Hs IH Hy]; simpl.
  - repeat constructor.
  - destruct (key x <=? key y) eqn:E.
    + apply Z.leb_le in E. constructor.
      * constructor; assumption.
      * constructor; [exact E|].
        eapply Forall_impl; [|exact Hy].
        unfold key_le; intros; lia.
    + apply Z.leb_gt in E. constructor; [exact IH|].
      apply (Permutation_Forall (Permutation_sym (insert_by_perm x l))).
      constructor; [unfold key_le; lia | exact Hy].
Qed.

Lemma order_by_sorted (l : list A) : StronglySorted (key_le key) (order_by key l).
Proof.
  induction l as [|x l IH]; simpl.
  - constructor.
  - apply insert_by_sorted, IH.
Qed.

Lemma order_by_nil (l : list A) : order_by key l = [] <-> l = [].
Proof.
  split; intros H.
  - apply length_zero_iff_nil. rewrite <- order_by_length, H. reflexivity.
  - subst. reflexivity.
Qed.
End OrderBy.

(** ** Facts about slices *)

Lemma In_firstn {A} (n : nat) (l : list A) (x : A) : In x (firstn n l) -> In x l.
Proof.
  intros H. rewrite <- (firstn_skipn n l). apply in_or_app. now left.
Qed.

Lemma In_skipn {A} (n : nat) (l : list A) (x : A) : In x (skipn n l) -> In x l.
Proof.
  intros H. rewrite <- (firstn_skipn n l). apply in_or_app. now right.
Qed.

Lemma py_slice_nonneg {A} (l : list A) (start stop : Z) :
  0 <= start -> start <= stop ->
  py_slice l start stop
  = firstn (Z.to_nat (stop - start)) (skipn (Z.to_nat start) l).
Proof.
  intros H0 H1. unfold py_slice, slice_index.
  destruct (start <? 0) eqn:E0; [apply Z.ltb_lt in E0; lia|].
  destruct (stop <? 0) eqn:E1; [apply Z.ltb_lt in E1; lia|].
  set (n := Z.of_nat (List.length l)).
  destruct (Z.le_gt_cases n start) as [Hge|Hlt].
  - rewrite (skipn_all2 l (n := Z.to_nat (Z.min start n))) by (subst n; lia).
    rewrite (skipn_all2 l (n := Z.to_nat start)) by (subst n; lia).
    now rewrite !firstn_nil.
  - rewrite (Z.min_l start n) by lia.
    destruct (Z.le_gt_cases stop n) as [Hs|Hs].
    + rewrite (Z.min_l stop n) by lia. reflexivity.
    + rewrite (Z.min_r stop n) by lia.
      rewrite !firstn_all2; try reflexivity; rewrite length_skipn; subst n; lia.
Qed.



Lemma In_py_slice {A} (l : list A) (start stop : Z) (x : A) :
  In x (py_slice l start stop) -> In x l.
Proof.
  unfold py_slice. intros H.
  eapply In_skipn, In_firstn, H.
Qed.

(** ** Facts about dicts and the category mapping *)

Lemma str_inj (a b : Z) : str a = str b -> a = b.
Proof.
  unfold str. intros H.
  assert (E : Some (Z.to_int a) = Some (Z.to_int b)).
  { rewrite <- !NilEmpty.isi, H. reflexivity. }
  injection E as E.
  rewrite <- (DecimalZ.of_to a), <- (DecimalZ.of_to b), E. reflexivity.
Qed.

Lemma dict_lookup_set_eq (k : string) (v : json) (d : dict) :
  dict_lookup k (dict_set k v d) = Some v.
Proof.
  induction d as [|[k' v'] d IH]; simpl.
  - now rewrite String.eqb_refl.
  - destruct (String.eqb k k') eqn:E; simpl; rewrite E; [reflexivity | exact IH].
Qed.

Lemma dict_lookup_set_ne (k k' : string) (v : json) (d : dict) :
  k <> k' -> dict_lookup k (dict_set k' v d) = dict_lookup k d.
Proof.
  intros Hne. induction d as [|[k2 v2] d IH]; simpl.
  - apply String.eqb_neq in Hne. now rewrite Hne.
  - destruct (String.eqb k' k2) eqn:E; simpl.
    + apply String.eqb_eq in E. subst k2.
      apply String.eqb_neq in Hne. now rewrite Hne.
    + now rewrite IH.
Qed.

Lemma categories_dict_other (l : list Category.t) (d : dict) (k : string) :
  (forall c, In c l -> str (Category.id c) <> k) ->
  dict_lookup k (fold_left add_category l d) = dict_lookup k d.
Proof.
  revert d. induction l as [|c l IH]; intros d H; simpl.
  - reflexivity.
  - rewrite IH by (intros c' Hc'; apply H; now right).
    unfold add_category. apply dict_lookup_set_ne.
    intros E. apply (H c); [now left | now symmetry].
Qed.

Lemma categories_dict_complete (l : list Category.t) (d : dict) (c : Category.t) :
  NoDup (map Category.id l) -> In c l ->
  dict_lookup (str (Category.id c)) (fold_left add_category l d)
  = Some (JStr (Category.type c)).
Proof.
  revert d. induction l as [|c' l IH]; intros d Hnd Hin; simpl in *.
  - contradiction.
  - inversion Hnd as [|? ? Hnotin Hnd']; subst.
    destruct Hin as [->|Hin].
    + rewrite categories_dict_other.
      * unfold add_category. apply dict_lookup_set_eq.
      * intros c' Hc' E. apply str_inj in E. apply Hnotin.
        rewrite <- E. now apply in_map.
    + now apply IH.
Qed.

Lemma categories_dict_sound (l : list Category.t) (d : dict) (k : string) (v : json) :
  dict_lookup k (fold_left add_category l d) = Some v ->
  dict_lookup k d = Some v
  \/ exists c, In c l /\ k = str (Category.id c) /\ v = JStr (Category.type c).
Proof.
  revert d. induction l as [|c l IH]; intros d H; simpl in *.
  - now left.
  - apply IH in H. destruct H as [H|(c' & Hc' & Hk & Hv)].
    + unfold add_category in H.
      destruct (string_dec k (str (Category.id c))) as [->|Hne].
      * rewrite dict_lookup_set_eq in H. injection H as <-.
        right. exists c. auto.
      * rewrite dict_lookup_set_ne in H by assumption. now left.
    + right. exists c'. auto.
Qed.

(** ** Running the views *)

Lemma retrieve_questions_run (st : store) (request : Request) :
  retrieve_questions request st
  = let current_questions :=
      paginate_questions request (order_by Question.id (questions st)) in
    if len current_questions =? 0
    then (Raise (HTTPException 404), st)
    else (Return (jsonify [("success", JBool true);
                           ("questions", JList current_questions);
                           ("totalQuestions", JNum (len (questions st)));
                           ("categories", JObj (categories_dict (categories st)))]),
          st).
Proof.
  unfold retrieve_questions, handle_errors, try_except, bind, query, when, abort,
    raise, ret.
  cbv zeta.
  destruct (len (paginate_questions request (order_by Question.id (questions st))) =? 0);
    reflexivity.
Qed.

Lemma len_0_iff_nil {A} (l : list A) : (len l =? 0) = true <-> l = [].
Proof.
  unfold len. rewrite Z.eqb_eq. destruct l; simpl; split; intros H;
    try reflexivity; try discriminate; lia.
Qed.

Lemma len_0_false {A} (l : list A) : l <> [] -> (len l =? 0) = false.
Proof.
  intros H. destruct (len l =? 0) eqn:E; [|reflexivity].
  apply len_0_iff_nil in E. contradiction.
Qed.

Lemma serve_retrieve_questions (st : store) (request : Request) :
  serve (retrieve_questions request) st
  = let current_questions :=
      paginate_questions request (order_by Question.id (questions st)) in
    if len current_questions =? 0 then (not_found, st)
    else (ok (questions_page current_questions st), st).
Proof.
  unfold serve. rewrite retrieve_questions_run. cbv zeta.
  destruct (len _ =? 0); reflexivity.
Qed.

Lemma paginate_questions_page (request : Request) (selection : list Question.t) :
  1 <= args_get_page request 1 ->
  paginate_questions request selection
  = map Question.format (nth_page (args_get_page request 1) selection).
Proof.
  intros H. unfold paginate_questions, nth_page, QUESTIONS_PER_PAGE.
  rewrite py_slice_nonneg by lia.
  rewrite skipn_map, firstn_map.
  replace (Z.to_nat (_ + 10 - _)) with 10%nat by lia.
  now rewrite (Z.mul_comm 10).
Qed.




(** ** The quiz *)

Lemma not_in_ids (i : Z) (previous : list Z) :
  not_in (JNum i) (map JNum previous) = negb (existsb (Z.eqb i) previous).
Proof.
  unfold not_in. f_equal.
  induction previous as [|j l IH]; simpl; [reflexivity | now rewrite IH].
Qed.

Lemma existsb_eqb_In (i : Z) (l : list Z) :
  existsb (Z.eqb i) l = false <-> ~ In i l.
Proof.
  induction l as [|j l IH]; simpl.
  - split; auto.
  - rewrite orb_false_iff, IH, Z.eqb_neq. intuition congruence.
Qed.

Lemma same_scalar_num (v : json) (c : Z) :
  same_scalar v (JNum c) = true <-> v = JNum c.
Proof.
  destruct v; simpl; split; intros H; try discriminate.
  - apply Z.eqb_eq in H. now subst.
  - injection H as ->. apply Z.eqb_refl.
Qed.

Lemma NoDup_map_filter {A B} (key : A -> B) (keep : A -> bool) (rows : list A)
      (Hkeys : NoDup (map key rows)) :
  NoDup (map key (filter keep rows)).
Proof.
  induction rows as [|x rows IH]; simpl; [constructor|].
  simpl in Hkeys. inversion Hkeys as [|? ? Hx Hrows]; subst.
  destruct (keep x); simpl; auto.
  constructor; auto.
  intros Hc. apply Hx. apply in_map_iff in Hc. destruct Hc as (y & Hy & Hin).
  apply filter_In in Hin. rewrite <- Hy. apply in_map. tauto.
Qed.

Lemma NoDup_quiz_answer (l : list Question.t) :
  NoDup (map Question.id l) -> NoDup (map quiz_answer l).
Proof.
  induction l as [|x l IH]; simpl; intros H; [constructor|].
  inversion H as [|? ? Hx Hl]; subst. constructor; auto.
  intros Hc. apply Hx. apply in_map_iff in Hc. destruct Hc as (y & Hy & Hin).
  unfold quiz_answer, Question.format in Hy. injection Hy as Hy _.
  rewrite <- Hy. now apply in_map.
Qed.

Lemma map_nth_error_seq {A B} (f : A -> B) (d : B) (l : list A) :
  map (fun k => match nth_error l k with Some x => f x | None => d end)
      (seq 0 (List.length l))
  = map f l.
Proof.
  induction l as [|x l IH]; [reflexivity|].
  cbn [List.length seq map nth_error]. f_equal.
  rewrite <- seq_shift, map_map. exact IH.
Qed.

Lemma get_questions_for_quiz_run (st : store) (randbelow : nat -> nat)
      (request : Request) (o qc : dict) (previous : list Z) (c : Z) :
  get_json request = JObj o ->
  dict_lookup "previous_questions" o = Some (JList (map JNum previous)) ->
  dict_lookup "quiz_category" o = Some (JObj qc) ->
  dict_lookup "id" qc = Some (JNum c) ->
  get_questions_for_quiz randbelow request st
  = let selection := quiz_candidates previous c st in
    if len selection =? 0 then (Raise (HTTPException 404), st)
    else match nth_error selection (randbelow (List.length selection)) with
         | Some q => (Return (quiz_answer q), st)
         | None => (Raise (HTTPException 422), st)
         end.
Proof.
  intros Hb Hp Hq Hid.
  assert (Hsel :
    (if eq_int (JNum c) 0
     then filter (fun q => not_in (JNum (Question.id q)) (map JNum previous))
                 (questions st)
     else filter (fun q => same_scalar (Question.category q) (JNum c)
                           && not_in (JNum (Question.id q)) (map JNum previous))
                 (questions st))
    = quiz_candidates previous c st).
  { unfold quiz_candidates. simpl (eq_int _ _).
    destruct (c =? 0); apply filter_ext; intros q; rewrite not_in_ids; simpl.
    - now rewrite andb_true_r.
    - apply andb_comm. }
  unfold get_questions_for_quiz, handle_errors, try_except, bind, lift, get,
    subscript, as_list, query, when, abort, raise, ret, random_choice.
  rewrite Hb, Hp, Hq, Hid. cbv zeta.
  destruct (eq_int (JNum c) 0) eqn:E; rewrite <- Hsel;
    match goal with |- context [len ?l =? 0] => destruct (len l =? 0) end;
    try reflexivity;
    match goal with |- context [nth_error ?l ?k] => destruct (nth_error l k) end;
    reflexivity.
Qed.

(** C2: POST /quizzes with a list [previous_questions] and a category: the
    candidates are the questions whose id is not in the list, of that
    category unless its id is 0; the answer is 404 exactly when there is no
    candidate; otherwise it is the candidate at the index the generator
    draws below their number, and its id is not in the list; as the draw
    ranges over its n equally likely values the answers range over the n
    candidates in turn, and these answers are pairwise distinct (ids being
    unique), so a uniform draw picks a candidate uniformly. *)
Theorem get_questions_for_quiz_candidates
        (st : store) (randbelow : nat -> nat) (request : Request)
        (o qc : dict) (previous : list Z) (c : Z) :
  get_json request = JObj o ->
  dict_lookup "previous_questions" o = Some (JList (map JNum previous)) ->
  dict_lookup "quiz_category" o = Some (JObj qc) ->
  dict_lookup "id" qc = Some (JNum c) ->
  (forall n, (0 < n)%nat -> (randbelow n < n)%nat) ->
  let candidates := quiz_candidates previous c st in
  (forall q, In q candidates <->
             In q (questions st) /\ ~ In (Question.id q) previous
             /\ (c = 0 \/ Question.category q = JNum c))
  /\ (candidates = [] ->
      serve (get_questions_for_quiz randbelow request) st = (not_found, st))
  /\ (candidates <> [] ->
      exists q,
        nth_error candidates (randbelow (List.length candidates)) = Some q
        /\ In q candidates
        /\ ~ In (Question.id q) previous
        /\ serve (get_questions_for_quiz randbelow request) st
           = (ok (quiz_answer q), st))
  /\ map (fun k => fst (serve (get_questions_for_quiz (fun _ => k) request) st))
         (seq 0 (List.length candidates))
     = map (fun q => ok (quiz_answer q)) candidates
  /\ (NoDup (map Question.id (questions st)) ->
      NoDup (map quiz_answer candidates)).
Proof.
  intros Hb Hp Hq Hid Hrng candidates.
  assert (Hin : forall q, In q candidates <->
             In q (questions st) /\ ~ In (Question.id q) previous
             /\ (c = 0 \/ Question.category q = JNum c)).
  { intros q. unfold candidates, quiz_candidates.
    rewrite filter_In, andb_true_iff, negb_true_iff, orb_true_iff,
      existsb_eqb_In, Z.eqb_eq, same_scalar_num. tauto. }
  split; [exact Hin|]. split; [|split; [|split]].
  - intros E. unfold serve.
    rewrite (get_questions_for_quiz_run st randbelow request o qc previous c)
      by assumption.
    cbv zeta. fold candidates. apply len_0_iff_nil in E. now rewrite E.
  - intros E. unfold serve.
    rewrite (get_questions_for_quiz_run st randbelow request o qc previous c)
      by assumption.
    cbv zeta. fold candidates. rewrite (len_0_false _ E).
    assert (Hlt : (randbelow (List.length candidates) < List.length candidates)%nat).
    { apply Hrng. destruct candidates; [contradiction | simpl; lia]. }
    apply nth_error_Some in Hlt.
    destruct (nth_error candidates (randbelow (List.length candidates)))
      as [q|] eqn:Hq'; [|contradiction].
    exists q. assert (Hq'' : In q candidates) by (eapply nth_error_In; eauto).
    repeat split; auto. now apply Hin in Hq''.
  - rewrite <- (map_nth_error_seq (fun q => ok (quiz_answer q)) unprocessable candidates).
    apply map_ext_in. intros k Hk. apply in_seq in Hk. unfold serve.
    rewrite (get_questions_for_quiz_run st (fun _ => k) request o qc previous c)
      by assumption.
    cbv zeta. fold candidates.
    rewrite len_0_false by (intros E; rewrite E in Hk; simpl in Hk; lia).
    destruct (nth_error candidates k); reflexivity.
  - intros Hnd.
    apply NoDup_quiz_answer. unfold candidates, quiz_candidates.
    now apply NoDup_map_filter.
Qed.

(** ** What the views list comes from the store *)

Lemma In_nth_page_exists {A} (l : list A) (x : A) :
  In x l -> exists N, 1 <= N /\ In x (nth_page N l).
Proof.
  intros H. apply In_nth_error in H. destruct H as [i Hi].
  exists (Z.of_nat (i / 10) + 1). split; [lia|].
  unfold nth_page.
  replace (Z.to_nat (10 * (Z.of_nat (i / 10) + 1 - 1))) with (10 * (i / 10))%nat by lia.
  apply (nth_error_In _ (i mod 10)).
  rewrite nth_error_firstn.
  assert (Hm : (i mod 10 < 10)%nat) by (apply Nat.mod_upper_bound; lia).
  apply Nat.ltb_lt in Hm. rewrite Hm.
  rewrite nth_error_skipn, <- Nat.div_mod_eq. exact Hi.
Qed.

Lemma retrieve_questions_lists (st : store) (q : Question.t) :
  In q (questions st) ->
  exists N, 1 <= N
    /\ In (Question.format q)
          (response_questions
             (fst (serve (retrieve_questions {| args_page := Some N; get_json := JNull |}) st))).
Proof.
  intros H.
  apply (order_by_In Question.id) in H.
  apply In_nth_page_exists in H. destruct H as (N & HN & Hin).
  exists N. split; [exact HN|].
  rewrite serve_retrieve_questions. cbv zeta.
  rewrite paginate_questions_page by exact HN.
  change (args_get_page {| args_page := Some N; get_json := JNull |} 1) with N.
  apply (in_map Question.format) in Hin.
  destruct (len _ =? 0) eqn:E.
  - apply len_0_iff_nil in E. rewrite E in Hin. destruct Hin.
  - exact Hin.
Qed.

Lemma In_map_format_stored (l : list Question.t) (rows : list Question.t) (j : json) :
  (forall r, In r l -> In r rows) ->
  In j (map Question.format l) ->
  exists r, In r rows /\ j = Question.format r.
Proof.
  intros Hsub H. apply in_map_iff in H. destruct H as (r & <- & Hr).
  exists r. auto.
Qed.

Lemma order_by_filter_stored (p : Question.t -> bool) (rows : list Question.t) :
  forall r, In r (order_by Question.id (filter p rows)) -> In r rows.
Proof.
  intros r H. apply order_by_In in H. apply filter_In in H. tauto.
Qed.

Lemma listed_questions_stored (r : route) (st : store) (j : json) :
  In j (response_questions (fst (serve (view_function r) st))) ->
  exists q, In q (questions st) /\ j = Question.format q.
Proof.
  destruct r as [|request|question_id|request|category_id|randbelow request].
  - run_view. repeat split_match; simpl; contradiction.
  - simpl view_function. rewrite serve_retrieve_questions. cbv zeta.
    destruct (len _ =? 0); simpl; [contradiction|].
    unfold paginate_questions. intros H. apply In_py_slice in H.
    revert H. apply In_map_format_stored. intros q. apply order_by_In.
  - run_view. repeat split_match; simpl; contradiction.
  - run_view.
    destruct (get_json request); simpl; try contradiction.
    repeat split_match; simpl; try contradiction.
    apply In_map_format_stored, order_by_filter_stored.
  - run_view.
    repeat split_match; simpl; try contradiction.
    apply In_map_format_stored, order_by_filter_stored.
  - run_view.
    destruct (get_json request); simpl; try contradiction.
    repeat split_match; simpl; try contradiction;
      intros [<-|[]];
      match goal with
      | H : nth_error ?l _ = Some ?q |- _ =>
          exists q; split; [|reflexivity];
          apply nth_error_In in H; apply filter_In in H; tauto
      end.
Qed.

(** ** Deleting a question *)

Section PrimaryKey.
Context {A : Type} (key : A -> Z).

Lemma filter_key_none (l : list A) (k : Z) :
  (forall x, In x l -> key x <> k) ->
  filter (fun x => key x =? k) l = [].
Proof.
  induction l as [|x l IH]; simpl; intros H; [reflexivity|].
  destruct (key x =? k) eqn:E.
  - apply Z.eqb_eq in E. exfalso. apply (H x); auto.
  - apply IH. intros y Hy. apply H. now right.
Qed.

Lemma same_key_same_row (l : list A) (x y : A) :
  NoDup (map key l) -> In x l -> In y l -> key x = key y -> x = y.
Proof.
  induction l as [|z l IH]; simpl; intros Hnd Hx Hy E; [contradiction|].
  inversion Hnd as [|? ? Hz Hl]; subst.
  destruct Hx as [->|Hx], Hy as [->|Hy]; auto.
  - exfalso. apply Hz. rewrite E. now apply in_map.
  - exfalso. apply Hz. rewrite <- E. now apply in_map.
Qed.

Lemma filter_key_unique (l : list A) (k : Z) (x : A) :
  NoDup (map key l) -> In x l -> key x = k ->
  filter (fun y => key y =? k) l = [x].
Proof.
  induction l as [|z l IH]; simpl; intros Hnd Hin Hk; [contradiction|].
  inversion Hnd as [|? ? Hz Hl]; subst.
  destruct Hin as [->|Hin].
  - rewrite Z.eqb_refl. f_equal. apply filter_key_none.
    intros y Hy E. apply Hz. rewrite <- E. now apply in_map.
  - destruct (key z =? key x) eqn:E.
    + apply Z.eqb_eq in E. exfalso. apply Hz. rewrite E. now apply in_map.
    + now apply IH.
Qed.

Lemma key_present_or_absent (l : list A) (k : Z) :
  (exists x, In x l /\ key x = k) \/ (forall x, In x l -> key x <> k).
Proof.
  induction l as [|z l IH]; simpl.
  - right. intros x [].
  - destruct (Z.eq_dec (key z) k) as [E|E].
    + left. exists z. auto.
    + destruct IH as [(x & Hx & Hk)|IH].
      * left. exists x. auto.
      * right. intros x [->|Hx]; auto.
Qed.
End PrimaryKey.

(** C3: DELETE /questions/{id}: when no question has that id the answer is
    404 and the store is as it was; when one has, the answer is success with
    the deleted id, the store keeps every other question (and the
    categories) as they were and no longer holds that one, and no later
    request lists it. *)
Theorem delete_question_removes (st : store) (question_id : Z) :
  NoDup (map Question.id (questions st)) ->
  ((forall q, In q (questions st) -> Question.id q <> question_id) ->
   serve (delete_question question_id) st = (not_found, st))
  /\ (forall q, In q (questions st) -> Question.id q = question_id ->
      let st' := without_question question_id st in
      serve (delete_question question_id) st = (ok (deleted_answer question_id), st')
      /\ categories st' = categories st
      /\ (forall r, In r (questions st') <-> In r (questions st) /\ r <> q)
      /\ (forall next : route,
          ~ In (Question.format q)
               (response_questions (fst (serve (view_function next) st'))))).
Proof.
  intros Hnd. split.
  - intros Hnone. run_view.
    now rewrite (filter_key_none Question.id _ _ Hnone).
  - intros q Hq Hid st'.
    assert (Hkeep : forall r, In r (questions st') <-> In r (questions st) /\ r <> q).
    { intros r. unfold st', without_question. simpl.
      rewrite filter_In, negb_true_iff, Z.eqb_neq. split.
      - intros [Hr Hne]. split; [exact Hr|]. intros ->. contradiction.
      - intros [Hr Hne]. split; [exact Hr|]. intros E. apply Hne.
        rewrite <- Hid in E.
        exact (same_key_same_row Question.id _ _ _ Hnd Hr Hq E). }
    split; [|split; [reflexivity|split; [exact Hkeep|]]].
    + run_view. rewrite (filter_key_unique Question.id _ _ q Hnd Hq Hid). cbn beta iota.
      unfold st', without_question, ok, deleted_answer, jsonify.
      now rewrite Hid.
    + intros next Hin. apply listed_questions_stored in Hin.
      destruct Hin as (r & Hr & E). apply Hkeep in Hr.
      destruct Hr as [Hr Hne].
      unfold st', without_question in *.
      assert (Hidr : Question.id r = Question.id q).
      { unfold Question.format in E. now injection E. }
      apply Hne.
      exact (same_key_same_row Question.id _ _ _ Hnd Hr Hq Hidr).
Qed.

(** ** Creating a question *)

Lemma fresh_id_above (rows : list Question.t) (q : Question.t) :
  In q rows -> Question.id q < fresh_id rows.
Proof.
  unfold fresh_id. induction rows as [|x l IH]; cbn [map fold_right In]; intros H;
    [contradiction|].
  destruct H as [->|H]; [lia | apply IH in H; lia].
Qed.

Lemma has_key_false_field (body : json) (key : string) :
  has_key key body = false -> field body key = JNull.
Proof.
  unfold has_key, field, get. destruct body; try reflexivity.
  destruct (dict_lookup key o); [discriminate | reflexivity].
Qed.

Lemma create_question_or_search_run (request : Request) (st : store) :
  truthy (field (get_json request) "searchTerm") = false ->
  let body := get_json request in
  create_question_or_search request st
  = if is_None (field body "question") || is_None (field body "answer")
       || is_None (field body "category") || is_None (field body "difficulty")
    then (Raise (HTTPException 422), st)
    else (Return (JObj [("success", JBool true)]), with_question (new_row body st) st).
Proof.
  destruct request as [page body]. cbn [get_json]. cbv zeta.
  unfold new_row, field. run_view. cbn [get_json].
  destruct body; try reflexivity.
  cbn beta iota. intros ->.
  repeat split_match; try reflexivity; discriminate.
Qed.


(** ** Searching: LIKE patterns and substrings *)

Lemma append_assoc (a b c : string) : ((a ++ b) ++ c = a ++ (b ++ c))%string.
Proof. induction a as [|x a IH]; simpl; [reflexivity | now rewrite IH]. Qed.














Lemma search_run (request : Request) (st : store) (term : string) :
  field (get_json request) "searchTerm" = JStr term -> term <> "" ->
  serve (create_question_or_search request) st = (ok (search_answer term st), st).
Proof.
  destruct request as [page body]. cbn [get_json]. unfold field, get.
  intros H Hne. run_view. cbn [get_json].
  destruct body; try discriminate. cbn beta iota in *.
  rewrite H. cbn [truthy].
  apply String.eqb_neq in Hne. rewrite Hne. reflexivity.
Qed.

(** ** The search lists the matches of the pattern *)



(** ** The total a search reports *)

(** C6, as stated, fails: of three questions one matches "title", and the
    answer reports 3. *)
Lemma search_total_is_not_match_count :
  let r := fst (serve (create_question_or_search
                         (sample_post [("searchTerm", JStr "title")])) sample_store) in
  response_questions r = [Question.format (sample_question 3 "What Title?" 1)]
  /\ response_field r "totalQuestions" = Some (JNum 3)
  /\ ~ search_total_counts_matches.
Proof.
  split; [reflexivity|]. split; [reflexivity|].
  intros H.
  specialize (H sample_store (sample_post [("searchTerm", JStr "title")]) "title"
                eq_refl ltac:(discriminate)).
  vm_compute in H. discriminate.
Qed.

(** C6 (amended): a search answers with all the matches, with the number
    of all questions in the store as totalQuestions, and with a null
    currentCategory. *)
Theorem search_reports_store_total (st : store) (request : Request) (term : string) :
  field (get_json request) "searchTerm" = JStr term -> term <> "" ->
  let r := fst (serve (create_question_or_search request) st) in
  serve (create_question_or_search request) st = (ok (search_answer term st), st)
  /\ response_questions r = map Question.format (search_selection term st)
  /\ response_field r "totalQuestions" = Some (JNum (len (questions st)))
  /\ response_field r "currentCategory" = Some JNull
  /\ response_field r "success" = Some (JBool true).
Proof.
  intros H Hne r. unfold r. rewrite (search_run request st term H Hne).
  repeat split.
Qed.

(** ** Search or creation *)

(** C7, as stated, fails: a body whose searchTerm is the empty string is
    handled as a creation (here 422, a field is missing), not as a search
    (which would list every question). *)
Lemma empty_searchTerm_is_a_creation :
  let request := sample_post [("searchTerm", JStr "")] in
  has_key "searchTerm" (get_json request) = true
  /\ serve (create_question_or_search request) sample_store
     = (unprocessable, sample_store)
  /\ serve (handle_errors (search_questions (JStr ""))) sample_store
     = (ok (search_answer "" sample_store), sample_store)
  /\ List.length (search_selection "" sample_store) = 3%nat
  /\ ~ dispatches_on_presence.
Proof.
  repeat apply conj; try reflexivity.
  intros H.
  destruct (H (sample_post [("searchTerm", JStr "")]) sample_store) as [Hs _].
  specialize (Hs eq_refl). vm_compute in Hs. discriminate.
Qed.

(** C7 (amended): POST /questions with a JSON object as body searches
    exactly when the value of searchTerm is truthy (a non-empty string, for
    one) and attempts a creation otherwise: when the field is missing, null
    or the empty string.  A search with a non-empty string answers with the
    matches; a creation attempt answers 422 or adds the question. *)
Theorem create_question_or_search_dispatch
        (request : Request) (st : store) (o : dict) :
  get_json request = JObj o ->
  let body := get_json request in
  let searchTerm := field body "searchTerm" in
  (truthy searchTerm = true ->
   create_question_or_search request st
   = handle_errors (search_questions searchTerm) st)
  /\ (truthy searchTerm = false ->
      create_question_or_search request st
      = handle_errors
          (create_question (field body "question") (field body "answer")
                           (field body "difficulty") (field body "category")) st)
  /\ (has_key "searchTerm" body = false -> truthy searchTerm = false)
  /\ (searchTerm = JNull \/ searchTerm = JStr "" -> truthy searchTerm = false)
  /\ (forall s, searchTerm = JStr s -> s <> "" -> truthy searchTerm = true)
  /\ (forall s, searchTerm = JStr s -> s <> "" ->
      serve (create_question_or_search request) st = (ok (search_answer s st), st))
  /\ (truthy searchTerm = false ->
      serve (create_question_or_search request) st = (unprocessable, st)
      \/ serve (create_question_or_search request) st
         = (ok (JObj [("success", JBool true)]), with_question (new_row body st) st)).
Proof.
  intros Hb body searchTerm.
  assert (Hsearch : forall s, searchTerm = JStr s -> s <> "" ->
      serve (create_question_or_search request) st = (ok (search_answer s st), st)).
  { intros s Hs Hne. now apply search_run. }
  assert (Hcreate : truthy searchTerm = false ->
      serve (create_question_or_search request) st = (unprocessable, st)
      \/ serve (create_question_or_search request) st
         = (ok (JObj [("success", JBool true)]), with_question (new_row body st) st)).
  { intros Ht. unfold serve.
    rewrite (create_question_or_search_run request st Ht). cbv zeta. fold body.
    destruct (_ || _ || _ || _); [left | right]; reflexivity. }
  revert Hsearch Hcreate. unfold searchTerm, body. rewrite Hb. intros Hsearch Hcreate.
  split; [|split; [|split; [|split; [|split; [|split; [exact Hsearch|exact Hcreate]]]]]].
  - intros Ht. unfold create_question_or_search, handle_errors, try_except, bind, lift,
      field, get. rewrite Hb. cbn beta iota. unfold field, get in Ht. now rewrite Ht.
  - intros Ht. unfold create_question_or_search, handle_errors, try_except, bind, lift,
      field, get. rewrite Hb. cbn beta iota. unfold field, get in Ht. now rewrite Ht.
  - intros H. now rewrite (has_key_false_field _ _ H).
  - intros [->| ->]; reflexivity.
  - intros s -> Hne. simpl. apply String.eqb_neq in Hne. now rewrite Hne.
Qed.

(** ** Questions of a category *)

(** C8: GET /categories/{id}/questions answers 404 exactly when no category
    has that id or no question is of that category; otherwise it lists
    exactly the questions of that category in the order of their ids, with
    the number of all questions of the store as totalQuestions and the
    category's type as currentCategory. *)
Theorem retrieve_questions_from_category_lists (st : store) (category_id : Z) :
  NoDup (map Category.id (categories st)) ->
  let selection := category_selection category_id st in
  StronglySorted (key_le Question.id) selection
  /\ (forall q, In q selection <->
        In q (questions st) /\ Question.category q = JNum category_id)
  /\ ((forall c, In c (categories st) -> Category.id c <> category_id) ->
      serve (retrieve_questions_from_category category_id) st = (not_found, st))
  /\ (selection = [] ->
      serve (retrieve_questions_from_category category_id) st = (not_found, st))
  /\ (forall c, In c (categories st) -> Category.id c = category_id ->
      selection <> [] ->
      serve (retrieve_questions_from_category category_id) st
      = (ok (category_answer c st), st)).
Proof.
  intros Hnd selection.
  assert (Habsent : (forall c, In c (categories st) -> Category.id c <> category_id) ->
      serve (retrieve_questions_from_category category_id) st = (not_found, st)).
  { intros Hnone. run_view.
    now rewrite (filter_key_none Category.id _ _ Hnone). }
  assert (Hpresent : forall c, In c (categories st) -> Category.id c = category_id ->
      serve (retrieve_questions_from_category category_id) st
      = if len selection =? 0 then (not_found, st) else (ok (category_answer c st), st)).
  { intros c Hc Hid. run_view.
    rewrite (filter_key_unique Category.id _ _ c Hnd Hc Hid). cbn beta iota.
    unfold category_answer. rewrite Hid. fold (category_selection category_id st).
    fold selection. destruct (len selection =? 0); reflexivity. }
  split; [apply order_by_sorted|]. split; [|split; [exact Habsent|split]].
  - intros q. unfold selection, category_selection.
    now rewrite order_by_In, filter_In, same_scalar_num.
  - intros E.
    destruct (key_present_or_absent Category.id (categories st) category_id)
      as [(c & Hc & Hid)|Hnone]; [|now apply Habsent].
    rewrite (Hpresent c Hc Hid). apply len_0_iff_nil in E. now rewrite E.
  - intros c Hc Hid E. rewrite (Hpresent c Hc Hid). now rewrite (len_0_false _ E).
Qed.

(** ** Error answers *)



(** ** Listing the categories, and the views that only read *)

(** GET /categories answers 404 exactly when the store holds no category;
    otherwise it answers with the mapping of every category's id, as text,
    to its type. *)
Theorem retrieve_categories_lists (st : store) :
  let mapping := categories_dict (order_by Category.id (categories st)) in
  (categories st = [] -> serve retrieve_categories st = (not_found, st))
  /\ (categories st <> [] ->
      serve retrieve_categories st
      = (ok (JObj [("success", JBool true); ("categories", JObj mapping)]), st))
  /\ (NoDup (map Category.id (categories st)) ->
      forall c, In c (categories st) ->
      dict_lookup (str (Category.id c)) mapping = Some (JStr (Category.type c)))
  /\ (forall k v, dict_lookup k mapping = Some v ->
      exists c, In c (categories st)
                /\ k = str (Category.id c) /\ v = JStr (Category.type c)).
Proof.
  intros mapping. repeat apply conj.
  - intros E. run_view. now rewrite E.
  - intros E. run_view.
    rewrite len_0_false; [reflexivity|]. now rewrite order_by_nil.
  - intros Hnd c Hc. apply categories_dict_complete.
    + apply (Permutation_NoDup (l := map Category.id (categories st))); [|exact Hnd].
      apply Permutation_map, Permutation_sym, order_by_perm.
    + now apply order_by_In.
  - intros k v H. apply categories_dict_sound in H.
    destruct H as [H|(c & Hc & H)]; [discriminate|].
    exists c. split; [|exact H]. now apply (order_by_In Category.id).
Qed.

(** The views that list categories or questions, the quiz and a search
    leave the store as it was. *)
Theorem reading_views_keep_the_store (st : store) :
  snd (serve retrieve_categories st) = st
  /\ (forall request, snd (serve (retrieve_questions request) st) = st)
  /\ (forall category_id,
      snd (serve (retrieve_questions_from_category category_id) st) = st)
  /\ (forall randbelow request,
      snd (serve (get_questions_for_quiz randbelow request) st) = st)
  /\ (forall request,
      truthy (field (get_json request) "searchTerm") = true ->
      snd (serve (create_question_or_search request) st) = st).
Proof.
  repeat apply conj.
  - run_view. repeat split_match; reflexivity.
  - intros request. rewrite serve_retrieve_questions. cbv zeta.
    destruct (len _ =? 0); reflexivity.
  - intros category_id. run_view. repeat split_match; reflexivity.
  - intros randbelow request. run_view.
    destruct (get_json request); cbn beta iota; repeat split_match; reflexivity.
  - intros [page body]. cbn [get_json]. unfold field. run_view. cbn [get_json].
    destruct body; cbn beta iota; try reflexivity.
    intros ->. repeat split_match; reflexivity.
Qed.

(** A request leaves the store as it was, or without the rows of one
    identity, or with one more row under a fresh identity. *)
Lemma served_store (r : route) (st : store) :
  let st' := snd (serve (view_function r) st) in
  st' = st
  \/ (exists question_id, st' = without_question question_id st)
  \/ (exists row, st' = with_question row st
                  /\ Question.id row = fresh_id (questions st)).
Proof.
  destruct r as [|request|question_id|request|category_id|randbelow request];
    run_view;
    try (destruct (get_json request); cbn beta iota);
    repeat split_match; cbn [fst snd];
    first [ left; reflexivity
          | right; left; eexists; reflexivity
          | right; right; eexists; split; reflexivity ].
Qed.

(** Whatever the request, identities stay unique in both tables. *)
Theorem views_keep_identities_unique (r : route) (st : store) :
  NoDup (map Category.id (categories st)) ->
  NoDup (map Question.id (questions st)) ->
  let st' := snd (serve (view_function r) st) in
  NoDup (map Category.id (categories st'))
  /\ NoDup (map Question.id (questions st')).
Proof.
  intros Hc Hq st'.
  destruct (served_store r st) as [E|[(question_id & E)|(row & E & Hid)]];
    fold st' in E; rewrite E.
  - now split.
  - split; [exact Hc|]. unfold without_question. simpl.
    now apply NoDup_map_filter.
  - split; [exact Hc|]. unfold with_question. simpl.
    rewrite map_app. simpl.
    apply (Permutation_NoDup (l := Question.id row :: map Question.id (questions st))).
    + apply Permutation_cons_append.
    + constructor; [|exact Hq].
      intros Hin. apply in_map_iff in Hin. destruct Hin as (q & Hq' & Hin).
      apply fresh_id_above in Hin. lia.
Qed.

(** ** The theorems at the sample data *)


Lemma get_questions_for_quiz_candidates_witness :
  quiz_candidates [3] 1 sample_store = [sample_question 2 "b" 1]
  /\ serve (get_questions_for_quiz (fun _ => 0%nat) (sample_post quiz_body)) sample_store
     = (ok (quiz_answer (sample_question 2 "b" 1)), sample_store).
Proof.
  split; [reflexivity|].
  destruct (get_questions_for_quiz_candidates sample_store (fun _ => 0%nat)
              (sample_post quiz_body) quiz_body [("id", JNum 1)] [3] 1
              eq_refl eq_refl eq_refl eq_refl (fun n Hn => Hn))
    as (_ & _ & Hsome & _).
  destruct (Hsome ltac:(vm_compute; discriminate)) as (q & Hq & _ & _ & Hserve).
  vm_compute in Hq. injection Hq as <-. exact Hserve.
Defined.

Lemma delete_question_removes_witness :
  NoDup (map Question.id (questions sample_store))
  /\ serve (delete_question 1) sample_store
     = (ok (deleted_answer 1), without_question 1 sample_store)
  /\ questions (without_question 1 sample_store)
     = [sample_question 3 "What Title?" 1; sample_question 2 "b" 1].
Proof.
  assert (H : NoDup (map Question.id (questions sample_store))) by distinct_ids.
  split; [exact H|]. split; [|reflexivity].
  destruct (delete_question_removes sample_store 1 H) as [_ Hsome].
  apply (Hsome (sample_question 1 "a" 2)); [simpl; auto | reflexivity].
Defined.



Lemma search_reports_store_total_witness :
  response_field
    (fst (serve (create_question_or_search
                   (sample_post [("searchTerm", JStr "title")])) sample_store))
    "totalQuestions"
  = Some (JNum 3)
  /\ search_selection "title" sample_store = [sample_question 3 "What Title?" 1].
Proof.
  split; [|reflexivity].
  destruct (search_reports_store_total sample_store
              (sample_post [("searchTerm", JStr "title")]) "title" eq_refl
              ltac:(discriminate))
    as (_ & _ & Htotal & _).
  exact Htotal.
Defined.

Lemma create_question_or_search_dispatch_witness :
  truthy (field (get_json (sample_post [("searchTerm", JStr "")])) "searchTerm") = false
  /\ create_question_or_search (sample_post [("searchTerm", JStr "")]) sample_store
     = handle_errors (create_question JNull JNull JNull JNull) sample_store.
Proof.
  split; [reflexivity|].
  destruct (create_question_or_search_dispatch
              (sample_post [("searchTerm", JStr "")]) sample_store
              [("searchTerm", JStr "")] eq_refl)
    as (_ & Hcreate & _).
  exact (Hcreate eq_refl).
Defined.

Lemma retrieve_questions_from_category_lists_witness :
  NoDup (map Category.id (categories sample_store))
  /\ category_selection 1 sample_store
     = [sample_question 2 "b" 1; sample_question 3 "What Title?" 1]
  /\ serve (retrieve_questions_from_category 1) sample_store
     = (ok (category_answer (Category.mk 1 "Science") sample_store), sample_store).
Proof.
  assert (H : NoDup (map Category.id (categories sample_store))) by distinct_ids.
  split; [exact H|]. split; [reflexivity|].
  destruct (retrieve_questions_from_category_lists sample_store 1 H)
    as (_ & _ & _ & _ & Hsome).
  apply Hsome; [simpl; auto | reflexivity | vm_compute; discriminate].
Defined.

(** Page -1 of twelve questions lists the two of lowest id; page 0 and
    page 2 of three questions are not found. *)
Example negative_page_of_twelve :
  response_questions (fst (serve (retrieve_questions (sample_get (-1))) twelve_questions))
  = map Question.format [sample_question 1 "q" 1; sample_question 2 "q" 1]
  /\ serve (retrieve_questions (sample_get 0)) sample_store = (not_found, sample_store)
  /\ serve (retrieve_questions (sample_get 2)) sample_store = (not_found, sample_store).
Proof. repeat split. Qed.

Lemma views_keep_identities_unique_witness :
  NoDup (map Question.id
             (questions (snd (serve (view_function (POST_questions (sample_post complete_body)))
                                    sample_store)))).
Proof.
  apply (views_keep_identities_unique (POST_questions (sample_post complete_body))
           sample_store); distinct_ids.
Defined.

(** ** Paging through the questions *)

Lemma firstn_more {A} (n m : nat) (l : list A) :
  firstn (n + m) l = (firstn n l ++ firstn m (skipn n l))%list.
Proof.
  revert l. induction n as [|n IH]; intros l; [reflexivity|].
  destruct l as [|x l]; simpl.
  - now rewrite firstn_nil.
  - now rewrite IH.
Qed.

Lemma nth_page_length {A} (N : Z) (l : list A) :
  1 <= N ->
  len (nth_page N l) = Z.max 0 (Z.min 10 (len l - 10 * (N - 1))).
Proof.
  intros HN. unfold nth_page, len.
  rewrite length_firstn, length_skipn. lia.
Qed.

(** GET /questions with a page N >= 1 is found exactly when more than
    10(N-1) questions exist, and then lists ten questions, or what is left
    of them on the last page. *)
Theorem page_found_iff_within_total (st : store) (request : Request) :
  let N := args_get_page request 1 in
  let total := len (questions st) in
  1 <= N ->
  (total <= 10 * (N - 1) ->
   serve (retrieve_questions request) st = (not_found, st))
  /\ (10 * (N - 1) < total ->
      exists page,
        serve (retrieve_questions request) st = (ok (questions_page page st), st)
        /\ len page = Z.min 10 (total - 10 * (N - 1))).
Proof.
  intros N total HN.
  set (page := map Question.format (nth_page N (order_by Question.id (questions st)))).
  assert (Hlen : len page = Z.max 0 (Z.min 10 (total - 10 * (N - 1)))).
  { unfold page, len. rewrite length_map.
    fold (len (nth_page N (order_by Question.id (questions st)))).
    rewrite nth_page_length by exact HN.
    unfold total, len. now rewrite order_by_length. }
  assert (Hrun : serve (retrieve_questions request) st
                 = if len page =? 0 then (not_found, st)
                   else (ok (questions_page page st), st)).
  { rewrite serve_retrieve_questions. cbv zeta.
    now rewrite paginate_questions_page by exact HN. }
  split.
  - intros H. rewrite Hrun.
    replace (len page =? 0) with true; [reflexivity|].
    symmetry. apply Z.eqb_eq. lia.
  - intros H. exists page. split; [|lia]. rewrite Hrun.
    replace (len page =? 0) with false; [reflexivity|].
    symmetry. apply Z.eqb_neq. lia.
Qed.

Lemma first_pages_concat (k : nat) (selection : list Question.t) :
  List.concat (first_pages k selection)
  = map Question.format (firstn (10 * k) selection).
Proof.
  unfold first_pages. induction k as [|k IH].
  - reflexivity.
  - rewrite seq_S, map_app, concat_app, IH. cbn [map List.concat Nat.add].
    rewrite app_nil_r, paginate_questions_page
      by (unfold request_page, args_get_page; simpl; lia).
    unfold request_page, args_get_page, nth_page. cbn [args_page].
    replace (Z.to_nat (10 * (Z.of_nat (S k) - 1))) with (10 * k)%nat by lia.
    rewrite <- map_app. f_equal.
    replace (10 * S k)%nat with (10 * k + 10)%nat by lia.
    now rewrite firstn_more.
Qed.

(** Pages 1 to k of GET /questions, put end to end, are the first 10k
    questions in the order of their ids, each once; as soon as 10k reaches
    the total they are all the questions, and the page after is not found. *)
Theorem pages_enumerate_the_questions (st : store) (k : nat) :
  let ordered := order_by Question.id (questions st) in
  List.concat (first_pages k ordered) = map Question.format (firstn (10 * k) ordered)
  /\ (len (questions st) <= 10 * Z.of_nat k ->
      List.concat (first_pages k ordered) = map Question.format ordered
      /\ serve (retrieve_questions (request_page (Z.of_nat k + 1))) st
         = (not_found, st)).
Proof.
  intros ordered. split; [apply first_pages_concat|].
  intros H. split.
  - rewrite first_pages_concat, firstn_all2; [reflexivity|].
    unfold ordered. rewrite order_by_length. unfold len in H. lia.
  - rewrite serve_retrieve_questions. cbv zeta.
    rewrite paginate_questions_page
      by (unfold request_page, args_get_page; simpl; lia).
    unfold request_page, args_get_page, nth_page. cbn [args_page].
    rewrite skipn_all2; [reflexivity|].
    rewrite order_by_length. unfold len in H. lia.
Qed.

(** ** Ordering and filtering commute *)

Section OrderByFilter.
Context {A : Type} (key : A -> Z) (keep : A -> bool).

Lemma insert_by_first (x : A) (s : list A) :
  (forall y, In y s -> key x <= key y) -> insert_by key x s = x :: s.
Proof.
  destruct s as [|y s]; [reflexivity|]. intros H. simpl.
  replace (key x <=? key y) with true; [reflexivity|].
  symmetry. apply Z.leb_le, H. now left.
Qed.

Lemma filter_insert_by_dropped (x : A) (s : list A) :
  keep x = false -> filter keep (insert_by key x s) = filter keep s.
Proof.
  intros Hx. induction s as [|y s IH]; simpl.
  - now rewrite Hx.
  - destruct (key x <=? key y); simpl.
    + now rewrite Hx.
    + now rewrite IH.
Qed.

Lemma filter_insert_by_kept (x : A) (s : list A) :
  StronglySorted (key_le key) s -> keep x = true ->
  filter keep (insert_by key x s) = insert_by key x (filter keep s).
Proof.
  intros Hs Hx. induction Hs as [|y s Hs IH Hy]; simpl.
  - now rewrite Hx.
  - destruct (key x <=? key y) eqn:E; simpl.
    + rewrite Hx. destruct (keep y); simpl.
      * now rewrite E.
      * symmetry. apply insert_by_first. intros z Hz.
        apply filter_In in Hz. destruct Hz as [Hz _].
        rewrite Forall_forall in Hy. specialize (Hy z Hz).
        apply Z.leb_le in E. unfold key_le in Hy. lia.
    + destruct (keep y); simpl; [rewrite E|]; now rewrite IH.
Qed.

Lemma order_by_filter (l : list A) :
  order_by key (filter keep l) = filter keep (order_by key l).
Proof.
  induction l as [|x l IH]; [reflexivity|]. simpl.
  destruct (keep x) eqn:Hx; simpl.
  - rewrite IH. symmetry. apply filter_insert_by_kept; [apply order_by_sorted | exact Hx].
  - rewrite IH. symmetry. now apply filter_insert_by_dropped.
Qed.

Lemma filter_lengths (l : list A) :
  (List.length (filter keep l) + List.length (filter (fun x => negb (keep x)) l)
   = List.length l)%nat.
Proof.
  induction l as [|x l IH]; [reflexivity|]. simpl.
  destruct (keep x); simpl; lia.
Qed.

End OrderByFilter.

(** ** Deleting, and creating then deleting *)

Lemma delete_question_absent (st : store) (question_id : Z) :
  (forall q, In q (questions st) -> Question.id q <> question_id) ->
  serve (delete_question question_id) st = (not_found, st).
Proof.
  intros Hnone. run_view. now rewrite (filter_key_none Question.id _ _ Hnone).
Qed.

Lemma delete_question_one_row (st : store) (question_id : Z) (q : Question.t) :
  filter (fun r => Question.id r =? question_id) (questions st) = [q] ->
  serve (delete_question question_id) st
  = (ok (deleted_answer question_id), without_question (Question.id q) st).
Proof.
  intros H. run_view. rewrite H. reflexivity.
Qed.

Lemma delete_question_present (st : store) (question_id : Z) (q : Question.t) :
  NoDup (map Question.id (questions st)) ->
  In q (questions st) -> Question.id q = question_id ->
  serve (delete_question question_id) st
  = (ok (deleted_answer question_id), without_question question_id st).
Proof.
  intros Hnd Hq Hid.
  rewrite (delete_question_one_row st question_id q).
  - now rewrite Hid.
  - now apply filter_key_unique.
Qed.

(** Once a question is deleted, deleting the same id again answers 404 and
    changes nothing, and the store holds exactly one question less. *)
Theorem deleting_twice_is_not_found (st : store) (question_id : Z) :
  NoDup (map Question.id (questions st)) ->
  (exists q, In q (questions st) /\ Question.id q = question_id) ->
  let st' := store_after (DELETE_question question_id) st in
  answer_to (DELETE_question question_id) st = ok (deleted_answer question_id)
  /\ serve (delete_question question_id) st' = (not_found, st')
  /\ len (questions st') = len (questions st) - 1.
Proof.
  intros Hnd (q & Hq & Hid) st'.
  assert (E : st' = without_question question_id st).
  { unfold st', store_after. simpl view_function.
    now rewrite (delete_question_present st question_id q). }
  split; [|split].
  - unfold answer_to. simpl view_function.
    now rewrite (delete_question_present st question_id q).
  - apply delete_question_absent. intros r Hr. rewrite E in Hr.
    unfold without_question in Hr. simpl in Hr.
    apply filter_In in Hr. destruct Hr as [_ Hr].
    apply negb_true_iff in Hr. now apply Z.eqb_neq.
  - rewrite E. unfold without_question, len. simpl.
    pose proof (filter_lengths (fun r => Question.id r =? question_id) (questions st)) as Hl.
    rewrite (filter_key_unique Question.id _ _ q Hnd Hq Hid) in Hl. simpl in Hl. lia.
Qed.

(** After a deletion the questions are listed in the order they had, with
    the deleted one left out. *)
Theorem deletion_keeps_the_order (st : store) (question_id : Z) :
  NoDup (map Question.id (questions st)) ->
  (exists q, In q (questions st) /\ Question.id q = question_id) ->
  let st' := store_after (DELETE_question question_id) st in
  order_by Question.id (questions st')
  = filter (fun r => negb (Question.id r =? question_id))
           (order_by Question.id (questions st))
  /\ forall k,
       List.concat (first_pages k (order_by Question.id (questions st')))
       = map Question.format
           (firstn (10 * k)
              (filter (fun r => negb (Question.id r =? question_id))
                      (order_by Question.id (questions st)))).
Proof.
  intros Hnd (q & Hq & Hid) st'.
  assert (E : order_by Question.id (questions st')
              = filter (fun r => negb (Question.id r =? question_id))
                       (order_by Question.id (questions st))).
  { unfold st', store_after. simpl view_function.
    rewrite (delete_question_present st question_id q) by assumption.
    unfold without_question. simpl. apply order_by_filter. }
  split; [exact E|]. intros k. now rewrite first_pages_concat, E.
Qed.




(** ** Searching, once more *)

Lemma format_inj (q q' : Question.t) :
  Question.format q = Question.format q' -> q = q'.
Proof.
  destruct q, q'. unfold Question.format. simpl. intros H.
  injection H as -> -> -> -> ->. reflexivity.
Qed.


(** A searchTerm that is truthy but not a string (a number, true, a
    non-empty list or object) is answered with 422, and nothing changes. *)
Theorem non_text_searchTerm_is_unprocessable (st : store) (request : Request) :
  truthy (field (get_json request) "searchTerm") = true ->
  (forall s, field (get_json request) "searchTerm" <> JStr s) ->
  serve (create_question_or_search request) st = (unprocessable, st).
Proof.
  destruct request as [page body]. cbn [get_json]. unfold field, get.
  intros Ht Hs. run_view. cbn [get_json].
  destruct body; try discriminate. cbn beta iota in *.
  rewrite Ht.
  destruct (match dict_lookup "searchTerm" o with Some v => v | None => JNull end);
    try reflexivity.
  now destruct (Hs s).
Qed.


(** The questions of a category and the matches of a search are listed in
    the order GET /questions lists them: each listing is the id-ordered
    list of all questions with the other rows left out. *)
Theorem listings_follow_the_id_order (st : store) :
  let all := order_by Question.id (questions st) in
  (forall category_id,
     let listed :=
       response_questions (answer_to (GET_category_questions category_id) st) in
     listed = []
     \/ listed
        = map Question.format
            (filter (fun q => same_scalar (Question.category q) (JNum category_id)) all))
  /\ (forall request term,
       field (get_json request) "searchTerm" = JStr term -> term <> "" ->
       response_questions (answer_to (POST_questions request) st)
       = map Question.format
           (filter (fun q => ilike (Question.question q) (format_pattern (lower term)))
                   all)).
Proof.
  intros all. split.
  - intros category_id listed. unfold listed, answer_to, all. run_view.
    repeat split_match; cbn [fst]; try (left; reflexivity).
    right. unfold response_questions. simpl. now rewrite order_by_filter.
  - intros request term H Hne. unfold answer_to, all. simpl view_function.
    rewrite (search_run request st term H Hne).
    change (response_questions (fst (ok (search_answer term st), st)))
      with (map Question.format (search_selection term st)).
    unfold search_selection. now rewrite order_by_filter.
Qed.

(** ** The views agree *)

(** Whatever question a request lists (a page, a category, a search, the
    quiz), GET /questions lists it on one of its pages. *)
Theorem listed_questions_are_on_a_page (r : route) (st : store) (j : json) :
  In j (response_questions (answer_to r st)) ->
  exists N, 1 <= N
    /\ In j (response_questions (answer_to (GET_questions (request_page N)) st)).
Proof.
  intros H. apply listed_questions_stored in H. destruct H as (q & Hq & ->).
  exact (retrieve_questions_lists st q Hq).
Qed.

(** ** The quiz, request after request *)

Lemma filter_both {A} (f g : A -> bool) (l : list A) :
  filter (fun x => f x && g x) l = filter g (filter f l).
Proof.
  induction l as [|x l IH]; [reflexivity|]. simpl.
  destruct (f x); simpl; [destruct (g x)|]; now rewrite IH.
Qed.

Lemma quiz_candidates_after (previous : list Z) (c k : Z) (st : store) :
  quiz_candidates (previous ++ [k]) c st
  = filter (fun r => negb (Question.id r =? k)) (quiz_candidates previous c st).
Proof.
  unfold quiz_candidates. rewrite <- filter_both. apply filter_ext. intros r.
  rewrite existsb_app. simpl. rewrite orb_false_r, negb_orb.
  destruct (existsb (Z.eqb (Question.id r)) previous),
           (Question.id r =? k),
           ((c =? 0) || same_scalar (Question.category r) (JNum c));
    reflexivity.
Qed.

Lemma quiz_request_run (st : store) (randbelow : nat -> nat)
      (previous : list Z) (c : Z) :
  (forall n, (0 < n)%nat -> (randbelow n < n)%nat) ->
  let candidates := quiz_candidates previous c st in
  (candidates = []
   /\ serve (get_questions_for_quiz randbelow (quiz_request previous c)) st
      = (not_found, st))
  \/ (exists q, In q candidates
        /\ serve (get_questions_for_quiz randbelow (quiz_request previous c)) st
           = (ok (quiz_answer q), st)).
Proof.
  intros Hrng candidates. unfold serve.
  rewrite (get_questions_for_quiz_run st randbelow (quiz_request previous c)
             _ [("id", JNum c)] previous c eq_refl eq_refl eq_refl eq_refl).
  cbv zeta. fold candidates.
  destruct (len candidates =? 0) eqn:E.
  - left. split; [now apply len_0_iff_nil | reflexivity].
  - right.
    assert (Hlt : (randbelow (List.length candidates) < List.length candidates)%nat).
    { apply Hrng. apply Z.eqb_neq in E. unfold len in E. lia. }
    apply nth_error_Some in Hlt.
    destruct (nth_error candidates (randbelow (List.length candidates))) as [q|] eqn:Hq;
      [|contradiction].
    exists q. split; [|reflexivity]. eapply nth_error_In, Hq.
Qed.

(** When the quiz answers with a question and the client asks again with
    that question's id added to the previous ones, one candidate less is
    left: the next answer is another candidate of the first request, or
    404 when the first answer was the only one. *)
Theorem quiz_feedback_removes_the_answer
        (st : store) (randbelow randbelow' : nat -> nat)
        (previous : list Z) (c : Z) (q : Question.t) :
  NoDup (map Question.id (questions st)) ->
  (forall n, (0 < n)%nat -> (randbelow n < n)%nat) ->
  (forall n, (0 < n)%nat -> (randbelow' n < n)%nat) ->
  answer_to (POST_quizzes randbelow (quiz_request previous c)) st = ok (quiz_answer q) ->
  let candidates := quiz_candidates previous c st in
  let previous' := (previous ++ [Question.id q])%list in
  let next := answer_to (POST_quizzes randbelow' (quiz_request previous' c)) st in
  In q candidates
  /\ len (quiz_candidates previous' c st) = len candidates - 1
  /\ ((candidates = [q] /\ next = not_found)
      \/ (exists q', next = ok (quiz_answer q') /\ In q' candidates /\ q' <> q)).
Proof.
  intros Hnd Hrng Hrng' Hanswer candidates previous' next.
  assert (Hq : In q candidates).
  { unfold answer_to in Hanswer. simpl view_function in Hanswer.
    destruct (quiz_request_run st randbelow previous c Hrng) as [[_ E]|(q0 & Hq0 & E)];
      rewrite E in Hanswer; simpl in Hanswer; [discriminate|].
    assert (Hf : Question.format q0 = Question.format q)
      by (unfold ok, quiz_answer in Hanswer; congruence).
    apply format_inj in Hf. now subst. }
  assert (Hids : NoDup (map Question.id candidates))
    by (apply NoDup_map_filter; exact Hnd).
  assert (Hone : filter (fun r => Question.id r =? Question.id q) candidates = [q])
    by (apply (filter_key_unique Question.id); auto).
  assert (Hnext : quiz_candidates previous' c st
                  = filter (fun r => negb (Question.id r =? Question.id q)) candidates)
    by apply quiz_candidates_after.
  split; [exact Hq|]. split.
  - rewrite Hnext. unfold len.
    pose proof (filter_lengths (fun r => Question.id r =? Question.id q) candidates) as Hl.
    rewrite Hone in Hl. simpl in Hl. lia.
  - unfold next, answer_to. simpl view_function.
    destruct (quiz_request_run st randbelow' previous' c Hrng') as [[E Hs]|(q' & Hq' & Hs)];
      rewrite Hs; simpl.
    + left. split; [|reflexivity].
      pose proof (filter_lengths (fun r => Question.id r =? Question.id q) candidates) as Hl.
      rewrite Hone in Hl. rewrite Hnext in E. rewrite E in Hl. simpl in Hl.
      destruct candidates as [|x [|y l]]; simpl in Hl; try lia.
      destruct Hq as [->|[]]. reflexivity.
    + right. exists q'. split; [reflexivity|].
      rewrite Hnext in Hq'. apply filter_In in Hq'. destruct Hq' as [Hin Hne].
      split; [exact Hin|]. intros ->. rewrite Z.eqb_refl in Hne. discriminate.
Qed.

(** A quiz request whose body is an object without a [quiz_category], or
    with one that is not an object or has no [id], is answered with 422. *)
Theorem quiz_without_category_is_unprocessable
        (st : store) (randbelow : nat -> nat) (request : Request) (o : dict) :
  get_json request = JObj o ->
  (forall qc, dict_lookup "quiz_category" o = Some (JObj qc) ->
              dict_lookup "id" qc = None) ->
  serve (get_questions_for_quiz randbelow request) st = (unprocessable, st).
Proof.
  intros Hb H. run_view. rewrite Hb. cbn beta iota.
  destruct (dict_lookup "quiz_category" o) as [v|]; [|reflexivity].
  destruct v; try reflexivity.
  now rewrite (H o0 eq_refl).
Qed.

(** ** The mapping of the categories, entry by entry *)

Lemma dict_set_new (k : string) (v : json) (d : dict) :
  dict_lookup k d = None -> dict_set k v d = (d ++ [(k, v)])%list.
Proof.
  induction d as [|[k' v'] d IH]; simpl; [reflexivity|].
  destruct (String.eqb k k'); [discriminate|].
  intros H. now rewrite IH.
Qed.

Lemma dict_lookup_app_new (k k' : string) (v : json) (d : dict) :
  dict_lookup k d = None -> k <> k' -> dict_lookup k (d ++ [(k', v)])%list = None.
Proof.
  intros H Hne. induction d as [|[k2 v2] d IH]; simpl in *.
  - apply String.eqb_neq in Hne. now rewrite Hne.
  - destruct (String.eqb k k2); [discriminate | now apply IH].
Qed.

Lemma categories_dict_entries (l : list Category.t) (d : dict) :
  NoDup (map Category.id l) ->
  (forall c, In c l -> dict_lookup (str (Category.id c)) d = None) ->
  fold_left add_category l d = (d ++ map category_entry l)%list.
Proof.
  revert d. induction l as [|c l IH]; intros d Hnd Hd; simpl.
  - now rewrite app_nil_r.
  - inversion Hnd as [|? ? Hc Hl]; subst.
    unfold add_category at 2. rewrite dict_set_new by (apply Hd; now left).
    rewrite IH.
    + now rewrite <- app_assoc.
    + exact Hl.
    + intros c' Hc'. apply dict_lookup_app_new; [apply Hd; now right|].
      intros E. apply str_inj in E. apply Hc. rewrite <- E. now apply in_map.
Qed.

(** With unique ids the mapping of the categories has one entry for each
    category, in the order of the ids for GET /categories and in table
    order for GET /questions. *)
Theorem categories_mapping_has_one_entry_each (st : store) :
  NoDup (map Category.id (categories st)) ->
  categories_dict (categories st) = map category_entry (categories st)
  /\ (categories st <> [] ->
      response_field (answer_to GET_categories st) "categories"
      = Some (JObj (map category_entry (order_by Category.id (categories st)))))
  /\ (forall request page,
       answer_to (GET_questions request) st = ok (questions_page page st) ->
       response_field (answer_to (GET_questions request) st) "categories"
       = Some (JObj (map category_entry (categories st)))).
Proof.
  intros Hnd.
  assert (E : forall l, NoDup (map Category.id l) ->
                        categories_dict l = map category_entry l).
  { intros l Hl. unfold categories_dict.
    now rewrite categories_dict_entries by (auto; intros; reflexivity). }
  split; [now apply E|]. split.
  - intros Hne. unfold answer_to. run_view.
    rewrite len_0_false by now rewrite order_by_nil.
    cbn [fst]. unfold response_field. simpl. rewrite E; [reflexivity|].
    apply (Permutation_NoDup (l := map Category.id (categories st))); [|exact Hnd].
    apply Permutation_map, Permutation_sym, order_by_perm.
  - intros request page H. rewrite H. unfold response_field, ok, questions_page.
    simpl. now rewrite (E _ Hnd).
Qed.

(** ** The quiz across requests and views *)

Lemma quiz_candidates_In (previous : list Z) (c : Z) (st : store) (q : Question.t) :
  In q (quiz_candidates previous c st)
  <-> In q (questions st) /\ ~ In (Question.id q) previous
      /\ (c = 0 \/ Question.category q = JNum c).
Proof.
  unfold quiz_candidates.
  rewrite filter_In, andb_true_iff, negb_true_iff, orb_true_iff,
    existsb_eqb_In, Z.eqb_eq, same_scalar_num. tauto.
Qed.

Lemma quiz_request_outcome (st : store) (randbelow : nat -> nat)
      (previous : list Z) (c : Z) :
  let candidates := quiz_candidates previous c st in
  let served := serve (get_questions_for_quiz randbelow (quiz_request previous c)) st in
  (candidates = [] /\ served = (not_found, st))
  \/ (exists q, In q candidates /\ served = (ok (quiz_answer q), st))
  \/ (candidates <> [] /\ served = (unprocessable, st)).
Proof.
  intros candidates served. unfold served, serve.
  rewrite (get_questions_for_quiz_run st randbelow (quiz_request previous c)
             _ [("id", JNum c)] previous c eq_refl eq_refl eq_refl eq_refl).
  cbv zeta. fold candidates.
  destruct (len candidates =? 0) eqn:E.
  - left. split; [now apply len_0_iff_nil | reflexivity].
  - right.
    assert (Hne : candidates <> []).
    { intros Hnil. apply len_0_iff_nil in Hnil. congruence. }
    destruct (nth_error candidates (randbelow (List.length candidates))) as [q|] eqn:Hq.
    + left. exists q. split; [eapply nth_error_In, Hq | reflexivity].
    + right. split; [exact Hne | reflexivity].
Qed.

(** Once the quiz answers 404 it keeps doing so, however the client extends
    the previous ids, and whether it keeps the category or, after a 404
    for any category (id 0), names one. *)
Theorem quiz_not_found_persists
        (st : store) (randbelow randbelow' : nat -> nat)
        (previous previous' : list Z) (c c' : Z) :
  answer_to (POST_quizzes randbelow (quiz_request previous c)) st = not_found ->
  incl previous previous' ->
  c = 0 \/ c' = c ->
  serve (get_questions_for_quiz randbelow' (quiz_request previous' c')) st
  = (not_found, st).
Proof.
  intros H Hincl Hc.
  assert (E : quiz_candidates previous c st = []).
  { unfold answer_to in H. simpl view_function in H.
    destruct (quiz_request_outcome st randbelow previous c)
      as [[E _]|[(q & _ & Hs)|[_ Hs]]]; [exact E | |];
      rewrite Hs in H; discriminate. }
  assert (E' : quiz_candidates previous' c' st = []).
  { destruct (quiz_candidates previous' c' st) as [|q l] eqn:Hl; [reflexivity|].
    assert (Hq : In q (quiz_candidates previous' c' st)) by (rewrite Hl; now left).
    apply quiz_candidates_In in Hq. destruct Hq as (Hin & Hprev & Hcat).
    assert (Hq : In q (quiz_candidates previous c st)).
    { apply quiz_candidates_In. split; [exact Hin|]. split.
      - intros Hp. apply Hprev, Hincl, Hp.
      - destruct Hc as [->| ->]; [now left | exact Hcat]. }
    rewrite E in Hq. destruct Hq. }
  destruct (quiz_request_outcome st randbelow' previous' c')
    as [[_ Hs]|[(q & Hq & _)|[Hne _]]].
  - exact Hs.
  - rewrite E' in Hq. destruct Hq.
  - contradiction.
Qed.

Lemma category_listing_present (st : store) (c : Category.t) :
  NoDup (map Category.id (categories st)) -> In c (categories st) ->
  category_selection (Category.id c) st <> [] ->
  serve (retrieve_questions_from_category (Category.id c)) st
  = (ok (category_answer c st), st).
Proof.
  intros Hnd Hc Hne. run_view.
  rewrite (filter_key_unique Category.id _ _ c Hnd Hc eq_refl). cbn beta iota.
  fold (category_selection (Category.id c) st).
  now rewrite (len_0_false _ Hne).
Qed.

(** The question the quiz answers with for a category that exists (not the
    id 0, which stands for all) is one that the listing of that category
    lists. *)
Theorem quiz_answer_is_in_the_category_listing
        (st : store) (randbelow : nat -> nat) (previous : list Z)
        (category : Category.t) (q : Question.t) :
  NoDup (map Category.id (categories st)) ->
  In category (categories st) ->
  Category.id category <> 0 ->
  answer_to (POST_quizzes randbelow (quiz_request previous (Category.id category))) st
  = ok (quiz_answer q) ->
  In (Question.format q)
     (response_questions (answer_to (GET_category_questions (Category.id category)) st)).
Proof.
  intros Hnd Hc Hnz H.
  assert (Hq : In q (quiz_candidates previous (Category.id category) st)).
  { unfold answer_to in H. simpl view_function in H.
    destruct (quiz_request_outcome st randbelow previous (Category.id category))
      as [[_ Hs]|[(q0 & Hq0 & Hs)|[_ Hs]]]; rewrite Hs in H; try discriminate.
    assert (Hf : Question.format q0 = Question.format q)
      by (simpl in H; unfold ok, quiz_answer in H; congruence).
    apply format_inj in Hf. now subst. }
  apply quiz_candidates_In in Hq. destruct Hq as (Hin & _ & [Hz|Hcat]); [contradiction|].
  assert (Hsel : In q (category_selection (Category.id category) st)).
  { unfold category_selection. apply order_by_In, filter_In.
    split; [exact Hin | now apply same_scalar_num]. }
  unfold answer_to. simpl view_function.
  rewrite (category_listing_present st category Hnd Hc)
    by (intros E; rewrite E in Hsel; destruct Hsel).
  change (response_questions (fst (ok (category_answer category st), st)))
    with (map Question.format (category_selection (Category.id category) st)).
  now apply in_map.
Qed.

(** ** These theorems at the sample data *)

Lemma page_found_iff_within_total_witness :
  exists page,
    serve (retrieve_questions (request_page 2)) twelve_questions
    = (ok (questions_page page twelve_questions), twelve_questions)
    /\ len page = 2.
Proof.
  assert (H : 1 <= args_get_page (request_page 2) 1) by (vm_compute; discriminate).
  destruct (page_found_iff_within_total twelve_questions (request_page 2) H)
    as [_ Hfound].
  exact (Hfound eq_refl).
Defined.

Lemma deleting_twice_is_not_found_witness :
  serve (delete_question 1) (store_after (DELETE_question 1) sample_store)
  = (not_found, store_after (DELETE_question 1) sample_store)
  /\ len (questions (store_after (DELETE_question 1) sample_store)) = 2.
Proof.
  assert (Hnd : NoDup (map Question.id (questions sample_store))) by distinct_ids.
  assert (Hq : exists q, In q (questions sample_store) /\ Question.id q = 1)
    by (exists (sample_question 1 "a" 2); simpl; auto).
  destruct (deleting_twice_is_not_found sample_store 1 Hnd Hq) as (_ & H2 & H3).
  split; [exact H2 | exact H3].
Defined.

Lemma deletion_keeps_the_order_witness :
  order_by Question.id (questions (store_after (DELETE_question 1) sample_store))
  = [sample_question 2 "b" 1; sample_question 3 "What Title?" 1].
Proof.
  assert (Hnd : NoDup (map Question.id (questions sample_store))) by distinct_ids.
  assert (Hq : exists q, In q (questions sample_store) /\ Question.id q = 1)
    by (exists (sample_question 1 "a" 2); simpl; auto).
  destruct (deletion_keeps_the_order sample_store 1 Hnd Hq) as [H _].
  exact H.
Defined.


Lemma non_text_searchTerm_is_unprocessable_witness :
  serve (create_question_or_search (sample_post [("searchTerm", JNum 5)])) sample_store
  = (unprocessable, sample_store).
Proof.
  apply (non_text_searchTerm_is_unprocessable sample_store
           (sample_post [("searchTerm", JNum 5)]) eq_refl).
  intros s. discriminate.
Defined.


Lemma listed_questions_are_on_a_page_witness :
  exists N, 1 <= N
    /\ In (Question.format (sample_question 2 "b" 1))
          (response_questions (answer_to (GET_questions (request_page N)) sample_store)).
Proof.
  apply (listed_questions_are_on_a_page (GET_category_questions 1) sample_store).
  vm_compute. auto.
Defined.

Lemma quiz_feedback_removes_the_answer_witness :
  len (quiz_candidates ([3] ++ [2]) 1 sample_store)
  = len (quiz_candidates [3] 1 sample_store) - 1.
Proof.
  assert (Hnd : NoDup (map Question.id (questions sample_store))) by distinct_ids.
  destruct (quiz_feedback_removes_the_answer sample_store (fun _ => 0%nat) (fun _ => 0%nat)
              [3] 1 (sample_question 2 "b" 1) Hnd (fun n Hn => Hn) (fun n Hn => Hn)
              eq_refl)
    as (_ & H & _).
  exact H.
Defined.

Lemma quiz_without_category_is_unprocessable_witness :
  serve (get_questions_for_quiz (fun _ => 0%nat)
           (sample_post [("previous_questions", JList [])])) sample_store
  = (unprocessable, sample_store).
Proof.
  apply (quiz_without_category_is_unprocessable sample_store (fun _ => 0%nat)
           (sample_post [("previous_questions", JList [])])
           [("previous_questions", JList [])] eq_refl).
  intros qc H. discriminate.
Defined.

Lemma categories_mapping_has_one_entry_each_witness :
  categories_dict (categories sample_store)
  = [("1", JStr "Science"); ("2", JStr "Art")].
Proof.
  assert (Hnd : NoDup (map Category.id (categories sample_store))) by distinct_ids.
  destruct (categories_mapping_has_one_entry_each sample_store Hnd) as [H _].
  exact H.
Defined.

Lemma quiz_not_found_persists_witness :
  serve (get_questions_for_quiz (fun _ => 0%nat) (quiz_request [1; 2; 3; 7] 1)) sample_store
  = (not_found, sample_store).
Proof.
  apply (quiz_not_found_persists sample_store (fun _ => 0%nat) (fun _ => 0%nat)
           [1; 2; 3] [1; 2; 3; 7] 0 1 eq_refl).
  - intros x Hx. simpl in *. tauto.
  - now left.
Defined.

Lemma quiz_answer_is_in_the_category_listing_witness :
  In (Question.format (sample_question 2 "b" 1))
     (response_questions (answer_to (GET_category_questions 1) sample_store)).
Proof.
  assert (Hnd : NoDup (map Category.id (categories sample_store))) by distinct_ids.
  apply (quiz_answer_is_in_the_category_listing sample_store (fun _ => 0%nat) [3]
           (Category.mk 1 "Science") (sample_question 2 "b" 1) Hnd).
  - simpl. auto.
  - discriminate.
  - reflexivity.
Defined.
